(** * PolicyGenerator-AI: the policy assembler and its two exporters

    A shallow embedding of [src/policygenerator_ai/generator.py].

    The Python module talks to three external libraries: the OpenAI chat
    completion endpoint, python-docx and reportlab.  They are kept abstract
    here (class [Collaborators]): every call into them either returns or
    raises.  Everything the module itself computes (the outline table, the
    prompt, the per-section try/except, the assembly of the policy
    dictionary, the sequence of calls made on the two document objects) is
    translated function by function. *)

From Stdlib Require QArith.
From stdpp Require Import base strings list gmap.

Set Default Proof Using "Type".

(** ** Data model *)

(** [@dataclass PolicyConfig]: five [str] attributes, [language] has the
    default ["en"]. *)
Module PolicyConfig.
Record t : Type := mk {
  framework : string;
  organization_name : string;
  industry : string;
  size : string;
  language : string
}.

(** The constructor call with [language] left out. *)
Definition default_language : string := "en".
Definition make (framework organization_name industry size : string) : t :=
  mk framework organization_name industry size default_language.
End PolicyConfig.
Abbreviation PolicyConfig := PolicyConfig.t.

(** One element of the ["sections"] list:
    [{"title": section_name, "content": content}]. *)
Record PolicySection : Type := {
  section_title : string;
  section_content : string
}.

(** The ["metadata"] sub-dictionary. *)
Record PolicyMetadata : Type := {
  meta_organization : string;
  meta_industry : string;
  meta_generated_by : string
}.

(** The dictionary returned by [generate_policy]; its four keys are fixed. *)
Record PolicyRecord : Type := {
  policy_title : string;
  policy_framework : string;
  policy_sections : list PolicySection;
  policy_metadata : PolicyMetadata
}.

(** ** Python exceptions and the logger *)

(** An instance of (a subclass of) Python's [Exception]: the class name and
    the text [str(e)] yields.  This is the kind [except Exception] catches. *)
Record PyException : Type := {
  exc_class : string;
  exc_str : string
}.

Definition IndexError : PyException :=
  {| exc_class := "IndexError"; exc_str := "list index out of range" |}.

(** An instance of [BaseException] that is not an instance of [Exception]
    ([KeyboardInterrupt], [SystemExit], [GeneratorExit], a subclass of
    these): [except Exception] lets it pass. *)
Record PyBaseException : Type := {
  base_class : string;
  base_str : string
}.

Definition KeyboardInterrupt : PyBaseException :=
  {| base_class := "KeyboardInterrupt"; base_str := "" |}.

Inductive LogLevel : Type := INFO | ERROR.

(** A structlog event: level, event text and key/value pairs (the bound
    context first, then the keyword arguments of the call). *)
Record LogEvent : Type := {
  log_level : LogLevel;
  log_event : string;
  log_fields : list (string * string)
}.

(** [logger.bind(component="policy_generator")] *)
Definition bound_context : list (string * string) :=
  [("component", "policy_generator")].

(** ** The text-generation collaborator *)

Record ChatMessage : Type := {
  role : string;
  content : string
}.

Record ChatRequest : Type := {
  model : string;
  messages : list ChatMessage;
  temperature : QArith_base.Q;
  max_tokens : nat
}.

Record ChatChoice : Type := { message : ChatMessage }.

Record ChatResponse : Type := { choices : list ChatChoice }.

(** ** The two document writers *)

(** What python-docx is asked to append to the body of a document. *)
Inductive DocxElement : Type :=
  | DocxHeading (text : string) (level : nat)
  | DocxParagraph (text : string)
  | DocxPageBreak.

(** A [docx.Document]: its body, in the order of the [add_*] calls that
    returned. *)
Definition Document : Type := list DocxElement.

(** The three entries of reportlab's sample style sheet the module uses. *)
Inductive ParagraphStyle : Type := Title | Normal | Heading1.

(** reportlab flowables. *)
Inductive Flowable : Type :=
  | Paragraph (text : string) (style : ParagraphStyle)
  | Spacer (width height : nat).

(** [reportlab.lib.pagesizes.letter], in points. *)
Definition letter : nat * nat := (612, 792).

Record SimpleDocTemplate : Type := {
  filename : string;
  pagesize : nat * nat
}.

(** ** Computations: state, exceptions *)

(** How a Python call ends: it returns, it raises an [Exception], or it
    raises something outside [Exception]. *)
Inductive Outcome (A : Type) : Type :=
  | Returned (a : A)
  | Raised (e : PyException)
  | RaisedBase (b : PyBaseException).
Arguments Returned {A} a.
Arguments Raised {A} e.
Arguments RaisedBase {A} b.

(** The external calls of the module.  [W] is whatever they depend on and
    change (network, quota, the document objects, the file system); each
    call either returns or raises, and may change [W] either way.

    - [ChatCompletion_create]: [openai.ChatCompletion.create(...)];
    - [Document_add]: [doc.add_heading(text, level)],
      [doc.add_paragraph(text)] and [doc.add_page_break()] (python-docx
      rejects some strings);
    - [Document_save]: [doc.save(output_path)];
    - [Flowable_init]: the constructor calls [Paragraph(text, style)] and
      [Spacer(width, height)] (reportlab parses the text of a paragraph when
      it is constructed and rejects some strings);
    - [SimpleDocTemplate_build]: [doc.build(story)]. *)
Class Collaborators (W : Type) : Type := {
  ChatCompletion_create : ChatRequest -> W -> Outcome ChatResponse * W;
  Document_add : DocxElement -> W -> Outcome unit * W;
  Document_save : Document -> string -> W -> Outcome unit * W;
  Flowable_init : Flowable -> W -> Outcome unit * W;
  SimpleDocTemplate_build :
    SimpleDocTemplate -> list Flowable -> W -> Outcome unit * W
}.

Record State (W : Type) : Type := {
  world : W;
  log : list LogEvent
}.
Arguments world {W} s.
Arguments log {W} s.

Definition M (W A : Type) : Type := State W -> Outcome A * State W.

Definition ret {W A} (a : A) : M W A := fun st => (Returned a, st).

Definition raise {W A} (e : PyException) : M W A := fun st => (Raised e, st).

Definition bind {W A B} (m : M W A) (k : A -> M W B) : M W B :=
  fun st =>
    match m st with
    | (Returned a, st') => k a st'
    | (Raised e, st') => (Raised e, st')
    | (RaisedBase b, st') => (RaisedBase b, st')
    end.

Declare Scope py_scope.
Delimit Scope py_scope with py.
Notation "x <- m ;; k" := (bind m (fun x => k))
  (at level 100, m at next level, right associativity) : py_scope.
Notation "m ;; k" := (bind m (fun _ => k))
  (at level 100, right associativity) : py_scope.

(** [try: body  except Exception as e: handler e]: an [Exception] raised by
    the body goes to the handler, anything else raised passes through. *)
Definition try_except {W A} (body : M W A) (handler : PyException -> M W A)
  : M W A :=
  fun st =>
    match body st with
    | (Returned a, st') => (Returned a, st')
    | (Raised e, st') => handler e st'
    | (RaisedBase b, st') => (RaisedBase b, st')
    end.

(** An external call: runs on the [world] component, leaves the log alone. *)
Definition call {W A} (f : W -> Outcome A * W) : M W A :=
  fun st =>
    let (r, w) := f (world st) in
    (r, {| world := w; log := log st |}).

Definition logger_emit {W} (lvl : LogLevel) (event : string)
    (kw : list (string * string)) : M W unit :=
  fun st =>
    (Returned tt,
     {| world := world st;
        log := log st ++
               [{| log_level := lvl; log_event := event;
                   log_fields := bound_context ++ kw |}] |}).

Definition logger_info {W} := @logger_emit W INFO.
Definition logger_error {W} := @logger_emit W ERROR.

(** [xs[i]] on a Python list, for [i >= 0]. *)
Definition getitem {W A} (xs : list A) (i : nat) : M W A :=
  match xs !! i with
  | Some x => ret x
  | None => raise IndexError
  end.

(** ** [class PolicyGenerator] *)

(** The dictionary literal at the head of [_generate_policy_sections]. *)
Definition framework_templates : gmap string (list string) :=
  <["ISO27001" :=
      [ "Information Security Policy";
        "Organization of Information Security";
        "Human Resource Security";
        "Asset Management";
        "Access Control";
        "Cryptography";
        "Physical and Environmental Security";
        "Operations Security";
        "Communications Security";
        "System Acquisition, Development and Maintenance";
        "Supplier Relationships";
        "Information Security Incident Management";
        "Business Continuity Management";
        "Compliance" ]]> $
  <["RGPD" :=
      [ "Data Protection Principles";
        "Lawful Basis for Processing";
        "Data Subject Rights";
        "Data Security Measures";
        "Data Breach Notification";
        "Data Protection Impact Assessment";
        "Data Protection Officer";
        "International Data Transfers" ]]> $
  <["NIS2" :=
      [ "Risk Management";
        "Corporate Governance";
        "Business Continuity";
        "Supply Chain Security";
        "Security in Network and Information Systems";
        "Incident Handling";
        "Security Testing and Auditing" ]]> ∅.

(** [framework_templates.get(framework, [])]: the spec's [sectionsFor]. *)
Definition section_names (framework : string) : list string :=
  default [] (framework_templates !! framework).

(** The line feed of the triple-quoted template. *)
Definition LF : string := String (Ascii.ascii_of_nat 10) "".

(** The f-string bound to [prompt] in [_generate_section_content]: the spec's
    [buildPrompt]. *)
Definition prompt (section_name : string) (config : PolicyConfig) : string :=
  "Generate a comprehensive " +:+ section_name +:+ " section for a "
    +:+ PolicyConfig.framework config +:+ " security policy." +:+ LF
  +:+ LF
  +:+ "Organization: " +:+ PolicyConfig.organization_name config +:+ LF
  +:+ "Industry: " +:+ PolicyConfig.industry config +:+ LF
  +:+ "Size: " +:+ PolicyConfig.size config +:+ LF
  +:+ LF
  +:+ "Provide detailed, professional content with:" +:+ LF
  +:+ "- Clear objectives" +:+ LF
  +:+ "- Specific requirements" +:+ LF
  +:+ "- Implementation guidelines" +:+ LF
  +:+ "- Compliance requirements" +:+ LF
  +:+ LF
  +:+ "Format in professional policy language.".

(** The keyword arguments of [openai.ChatCompletion.create]. *)
Definition chat_request (user_prompt : string) : ChatRequest :=
  {| model := "gpt-4";
     messages :=
       [ {| role := "system";
            content := "You are a cybersecurity policy expert." |};
         {| role := "user"; content := user_prompt |} ];
     temperature := QArith_base.Qmake 3 10;
     max_tokens := 1000 |}.

(** [f"[Section content for {section_name}]"] *)
Definition placeholder (section_name : string) : string :=
  "[Section content for " +:+ section_name +:+ "]".

Definition generated_by : string := "Ayi NEDJIMI - ayinedjimi-consultants.fr".

Section PolicyGenerator.
Context {W : Type} `{!Collaborators W}.

Local Open Scope py_scope.

Definition _generate_section_content
    (section_name : string) (config : PolicyConfig) : M W string :=
  let prompt := prompt section_name config in
  try_except
    (response <- call (ChatCompletion_create (chat_request prompt)) ;;
     choice <- getitem (choices response) 0 ;;
     ret (content (message choice)))
    (fun e =>
       logger_error "LLM generation failed" [("error", exc_str e)] ;;
       ret (placeholder section_name)).

(** The [for] loop of [_generate_policy_sections]: [sections] is the list
    being appended to. *)
Fixpoint for_section_name (names : list string) (config : PolicyConfig)
    (sections : list PolicySection) : M W (list PolicySection) :=
  match names with
  | [] => ret sections
  | section_name :: names' =>
      content <- _generate_section_content section_name config ;;
      for_section_name names' config
        (sections ++ [{| section_title := section_name;
                         section_content := content |}])
  end.

Definition _generate_policy_sections (config : PolicyConfig)
  : M W (list PolicySection) :=
  let section_names := section_names (PolicyConfig.framework config) in
  let sections := [] in
  for_section_name (take 5 section_names) config sections.

Definition generate_policy (config : PolicyConfig) : M W PolicyRecord :=
  logger_info "Generating policy"
    [("framework", PolicyConfig.framework config)] ;;
  sections <- _generate_policy_sections config ;;
  ret {| policy_title :=
           PolicyConfig.framework config +:+ " Security Policy - "
             +:+ PolicyConfig.organization_name config;
         policy_framework := PolicyConfig.framework config;
         policy_sections := sections;
         policy_metadata :=
           {| meta_organization := PolicyConfig.organization_name config;
              meta_industry := PolicyConfig.industry config;
              meta_generated_by := generated_by |} |}.

(** *** Word export *)

(** [doc.add_heading(text, level)]: the call into python-docx, and what the
    document holds once it has returned. *)
Definition add_heading (doc : Document) (text : string) (level : nat)
  : M W Document :=
  call (Document_add (DocxHeading text level)) ;;
  ret (doc ++ [DocxHeading text level]).

Definition add_paragraph (doc : Document) (text : string) : M W Document :=
  call (Document_add (DocxParagraph text)) ;;
  ret (doc ++ [DocxParagraph text]).

Definition add_page_break (doc : Document) : M W Document :=
  call (Document_add DocxPageBreak) ;;
  ret (doc ++ [DocxPageBreak]).

(** The [for] loop of [export_to_docx]. *)
Fixpoint for_section_docx (sections : list PolicySection) (doc : Document)
  : M W Document :=
  match sections with
  | [] => ret doc
  | section :: sections' =>
      doc <- add_heading doc (section_title section) 1 ;;
      doc <- add_paragraph doc (section_content section) ;;
      doc <- add_page_break doc ;;
      for_section_docx sections' doc
  end.

Definition export_to_docx (policy : PolicyRecord) (output_path : string)
  : M W unit :=
  let doc : Document := [] in
  doc <- add_heading doc (policy_title policy) 0 ;;
  doc <- add_paragraph doc
           ("Organization: "
              +:+ meta_organization (policy_metadata policy)) ;;
  doc <- add_paragraph doc ("Framework: " +:+ policy_framework policy) ;;
  doc <- add_paragraph doc
           ("Generated by: "
              +:+ meta_generated_by (policy_metadata policy)) ;;
  doc <- add_page_break doc ;;
  doc <- for_section_docx (policy_sections policy) doc ;;
  call (Document_save doc output_path) ;;
  logger_info "Exported to DOCX" [("file", output_path)].

(** *** PDF export *)

(** [story.append(F(...))] for a flowable class [F]: the constructor call
    into reportlab, then the list with the new flowable at its end. *)
Definition append_new (story : list Flowable) (fl : Flowable)
  : M W (list Flowable) :=
  call (Flowable_init fl) ;;
  ret (story ++ [fl]).

(** The [for] loop of [export_to_pdf]. *)
Fixpoint for_section_pdf (sections : list PolicySection)
    (story : list Flowable) : M W (list Flowable) :=
  match sections with
  | [] => ret story
  | section :: sections' =>
      story <- append_new story (Paragraph (section_title section) Heading1) ;;
      story <- append_new story (Spacer 1 6) ;;
      story <- append_new story (Paragraph (section_content section) Normal) ;;
      story <- append_new story (Spacer 1 12) ;;
      for_section_pdf sections' story
  end.

Definition export_to_pdf (policy : PolicyRecord) (output_path : string)
  : M W unit :=
  let doc := {| filename := output_path; pagesize := letter |} in
  let story : list Flowable := [] in
  story <- append_new story (Paragraph (policy_title policy) Title) ;;
  story <- append_new story (Spacer 1 12) ;;
  story <- append_new story
             (Paragraph
                ("Organization: "
                   +:+ meta_organization (policy_metadata policy))
                Normal) ;;
  story <- append_new story (Spacer 1 12) ;;
  story <- for_section_pdf (policy_sections policy) story ;;
  call (SimpleDocTemplate_build doc story) ;;
  logger_info "Exported to PDF" [("file", output_path)].

End PolicyGenerator.

(** ** Vocabulary of the statements *)

(** What one collaborator call amounts to for the caller: the text at
    [response.choices[0].message.content], the [Exception] that reaches the
    [except] clause (the collaborator's own, or the [IndexError] of a
    response without choices), or what the call raised outside
    [Exception]. *)
Definition text_of (o : Outcome ChatResponse) : Outcome string :=
  match o with
  | Returned response =>
      match choices response with
      | choice :: _ => Returned (content (message choice))
      | [] => Raised IndexError
      end
  | Raised e => Raised e
  | RaisedBase b => RaisedBase b
  end.

(** The diagnostic event of the [except] clause. *)
Definition failure_event (e : PyException) : LogEvent :=
  {| log_level := ERROR;
     log_event := "LLM generation failed";
     log_fields := bound_context ++ [("error", exc_str e)] |}.

(** The section a title gets from the outcome of its own call, when that
    call returned or raised an [Exception]. *)
Definition section_of (section_name : string) (o : Outcome ChatResponse)
  : PolicySection :=
  {| section_title := section_name;
     section_content :=
       match text_of o with
       | Returned text => text
       | _ => placeholder section_name
       end |}.

Definition diagnostics_of (o : Outcome ChatResponse) : list LogEvent :=
  match text_of o with
  | Raised e => [failure_event e]
  | _ => []
  end.

(** The outcomes of sending a list of requests one after the other. *)
Fixpoint chat_outcomes {W : Type} `{!Collaborators W}
    (requests : list ChatRequest) (w : W)
  : list (Outcome ChatResponse) * W :=
  match requests with
  | [] => ([], w)
  | request :: requests' =>
      let (o, w1) := ChatCompletion_create request w in
      let (os, w2) := chat_outcomes requests' w1 in
      (o :: os, w2)
  end.

(** The titles a run of [generate_policy] works through, and the outcomes
    of its collaborator calls, in order. *)
Definition outline (config : PolicyConfig) : list string :=
  take 5 (section_names (PolicyConfig.framework config)).

Definition policy_outcomes {W : Type} `{!Collaborators W}
    (config : PolicyConfig) (st : State W) : list (Outcome ChatResponse) :=
  (chat_outcomes
     (map (fun section_name => chat_request (prompt section_name config))
          (outline config))
     (world st)).1.

(** A call that ends in something outside [Exception]. *)
Definition interrupts {A : Type} (o : Outcome A) : bool :=
  match o with
  | RaisedBase _ => true
  | _ => false
  end.

(** A run of [generate_policy] none of whose collaborator calls raises
    outside [Exception]: every call returns or fails with an error. *)
Definition uninterrupted {W : Type} `{!Collaborators W}
    (config : PolicyConfig) (st : State W) : Prop :=
  forallb (fun o => negb (interrupts o)) (policy_outcomes config st) = true.

(** The first event of every run. *)
Definition generating_event (config : PolicyConfig) : LogEvent :=
  {| log_level := INFO;
     log_event := "Generating policy";
     log_fields :=
       bound_context ++ [("framework", PolicyConfig.framework config)] |}.

(** Two configurations that differ at most in [language]. *)
Definition same_up_to_language (c1 c2 : PolicyConfig) : Prop :=
  PolicyConfig.framework c1 = PolicyConfig.framework c2 ∧
  PolicyConfig.organization_name c1 = PolicyConfig.organization_name c2 ∧
  PolicyConfig.industry c1 = PolicyConfig.industry c2 ∧
  PolicyConfig.size c1 = PolicyConfig.size c2.

(** Structural markers read back from the two kinds of document. *)
Definition docx_headings (doc : Document) : list (string * nat) :=
  omap (fun el => match el with
                  | DocxHeading text level => Some (text, level)
                  | _ => None
                  end) doc.

Definition docx_paragraphs (doc : Document) : list string :=
  omap (fun el => match el with
                  | DocxParagraph text => Some text
                  | _ => None
                  end) doc.

Definition pdf_headings (story : list Flowable)
  : list (string * ParagraphStyle) :=
  omap (fun fl => match fl with
                  | Paragraph text Title => Some (text, Title)
                  | Paragraph text Heading1 => Some (text, Heading1)
                  | _ => None
                  end) story.

Definition pdf_paragraphs (story : list Flowable) : list string :=
  omap (fun fl => match fl with
                  | Paragraph text Normal => Some text
                  | _ => None
                  end) story.

(** The rendering of one section by each exporter. *)
Definition docx_section (section : PolicySection) : list DocxElement :=
  [ DocxHeading (section_title section) 1;
    DocxParagraph (section_content section);
    DocxPageBreak ].

Definition pdf_section (section : PolicySection) : list Flowable :=
  [ Paragraph (section_title section) Heading1;
    Spacer 1 6;
    Paragraph (section_content section) Normal;
    Spacer 1 12 ].

(** The elements [export_to_docx] asks python-docx for, in the order of its
    [add_*] calls: the document it has built when it reaches [doc.save],
    provided every one of these calls has returned. *)
Definition docx_document (policy : PolicyRecord) : Document :=
  [ DocxHeading (policy_title policy) 0;
    DocxParagraph
      ("Organization: " +:+ meta_organization (policy_metadata policy));
    DocxParagraph ("Framework: " +:+ policy_framework policy);
    DocxParagraph
      ("Generated by: " +:+ meta_generated_by (policy_metadata policy));
    DocxPageBreak ]
  ++ flat_map docx_section (policy_sections policy).

(** The flowables [export_to_pdf] constructs, in order: the list [story]
    when it reaches [doc.build], provided every constructor call has
    returned. *)
Definition pdf_story (policy : PolicyRecord) : list Flowable :=
  [ Paragraph (policy_title policy) Title;
    Spacer 1 12;
    Paragraph
      ("Organization: " +:+ meta_organization (policy_metadata policy))
      Normal;
    Spacer 1 12 ]
  ++ flat_map pdf_section (policy_sections policy).

(** A list of library calls made one after the other, up to the first that
    does not return. *)
Fixpoint run_all {W A : Type} (f : A -> W -> Outcome unit * W)
    (xs : list A) (w : W) : Outcome unit * W :=
  match xs with
  | [] => (Returned tt, w)
  | x :: xs' =>
      match f x w with
      | (Returned _, w1) => run_all f xs' w1
      | (Raised e, w1) => (Raised e, w1)
      | (RaisedBase b, w1) => (RaisedBase b, w1)
      end
  end.

(** The calls of such a list that are actually made: all of them up to and
    including the first that does not return. *)
Fixpoint attempted {W A : Type} (f : A -> W -> Outcome unit * W)
    (xs : list A) (w : W) : list A :=
  match xs with
  | [] => []
  | x :: xs' =>
      match f x w with
      | (Returned _, w1) => x :: attempted f xs' w1
      | _ => [x]
      end
  end.

(** What follows an external call that ended in [r]: the rest of the
    function when it returned, the same exception when it raised. *)
Definition and_then {W A B : Type} (r : Outcome A * W) (l : list LogEvent)
    (k : A -> M W B) : Outcome B * State W :=
  match r with
  | (Returned a, w) => k a {| world := w; log := l |}
  | (Raised e, w) => (Raised e, {| world := w; log := l |})
  | (RaisedBase b, w) => (RaisedBase b, {| world := w; log := l |})
  end.

(** An exporter's last two steps: the writer is called and, when it
    returns, the export is logged; when it raises, the exception passes
    through and nothing is logged. *)
Definition write_then_log {W : Type} (write : W -> Outcome unit * W)
    (event : LogEvent) (st : State W) : Outcome unit * State W :=
  and_then (write (world st)) (log st)
    (fun _ st' =>
       (Returned tt, {| world := world st'; log := log st' ++ [event] |})).

Definition exported_event (format output_path : string) : LogEvent :=
  {| log_level := INFO;
     log_event := "Exported to " +:+ format;
     log_fields := bound_context ++ [("file", output_path)] |}.

(** The exceptions caught in a sequence of collaborator calls, in order. *)
Definition failures (os : list (Outcome ChatResponse)) : list PyException :=
  omap (fun o => match text_of o with
                 | Raised e => Some e
                 | _ => None
                 end) os.

(** What the Word export reads of a record: everything but the industry. *)
Definition docx_visible (policy : PolicyRecord)
  : string * string * string * string * list PolicySection :=
  (policy_title policy,
   meta_organization (policy_metadata policy),
   policy_framework policy,
   meta_generated_by (policy_metadata policy),
   policy_sections policy).

(** What the PDF export reads of a record. *)
Definition pdf_visible (policy : PolicyRecord)
  : string * string * list PolicySection :=
  (policy_title policy,
   meta_organization (policy_metadata policy),
   policy_sections policy).

Definition is_page_break (el : DocxElement) : bool :=
  match el with
  | DocxPageBreak => true
  | _ => false
  end.

(** ** Construction of a generator *)

(** What [__init__] reads and writes outside the object: the process
    environment and the module attribute [openai.api_key]. *)
Record Process : Type := {
  environ : gmap string string;
  openai_api_key : option string
}.

(** The attributes [__init__] sets on [self]. *)
Record PolicyGenerator : Type := {
  api_key : option string;
  logger : list (string * string)
}.

(** [a or b] on two [Optional[str]] values: [None] and the empty string are
    falsy, every other string is truthy. *)
Definition py_or (a b : option string) : option string :=
  match a with
  | Some (String _ _) => a
  | _ => b
  end.

(** [os.getenv(name)] *)
Definition getenv (name : string) (p : Process) : option string :=
  environ p !! name.

Definition __init__ (api_key : option string) (p : Process)
  : PolicyGenerator * Process :=
  let self_api_key := py_or api_key (getenv "OPENAI_API_KEY" p) in
  ({| api_key := self_api_key; logger := bound_context |},
   {| environ := environ p; openai_api_key := self_api_key |}).

(** ** Collaborators to run the model against *)

(** A collaborator that replays a script: the world is the list of outcomes
    still to be served by the chat endpoint; once it is used up the endpoint
    is unreachable.  Both document libraries accept everything. *)
Definition ConnectionError : PyException :=
  {| exc_class := "APIConnectionError"; exc_str := "Connection error." |}.

Definition RateLimitError : PyException :=
  {| exc_class := "RateLimitError"; exc_str := "quota exceeded" |}.

#[export] Instance Replay : Collaborators (list (Outcome ChatResponse)) := {
  ChatCompletion_create _ w :=
    match w with
    | o :: w' => (o, w')
    | [] => (Raised ConnectionError, [])
    end;
  Document_add _ w := (Returned tt, w);
  Document_save _ _ w := (Returned tt, w);
  Flowable_init _ w := (Returned tt, w);
  SimpleDocTemplate_build _ _ w := (Returned tt, w)
}.

Definition completion (text : string) : Outcome ChatResponse :=
  Returned
    {| choices := [ {| message := {| role := "assistant";
                                      content := text |} |} ] |}.

Definition replay (script : list (Outcome ChatResponse))
  : State (list (Outcome ChatResponse)) :=
  {| world := script; log := [] |}.

(** The external calls, as a journal keeps them. *)
Inductive ExternalCall : Type :=
  | ChatCall (request : ChatRequest)
  | AddCall (el : DocxElement)
  | SaveCall (doc : Document) (output_path : string)
  | FlowableCall (fl : Flowable)
  | BuildCall (doc : SimpleDocTemplate) (story : list Flowable).

(** Any collaborator, with a journal of the calls made to it: each call is
    passed on unchanged and noted, whether it returns or raises. *)
Definition Traced {W : Type} (C : Collaborators W)
  : Collaborators (W * list ExternalCall) :=
  {| ChatCompletion_create request s :=
       let (o, w) := @ChatCompletion_create W C request s.1 in
       (o, (w, s.2 ++ [ChatCall request]));
     Document_add el s :=
       let (o, w) := @Document_add W C el s.1 in
       (o, (w, s.2 ++ [AddCall el]));
     Document_save doc output_path s :=
       let (o, w) := @Document_save W C doc output_path s.1 in
       (o, (w, s.2 ++ [SaveCall doc output_path]));
     Flowable_init fl s :=
       let (o, w) := @Flowable_init W C fl s.1 in
       (o, (w, s.2 ++ [FlowableCall fl]));
     SimpleDocTemplate_build doc story s :=
       let (o, w) := @SimpleDocTemplate_build W C doc story s.1 in
       (o, (w, s.2 ++ [BuildCall doc story])) |}.

(** A state of the traced collaborator seen without its journal. *)
Definition untraced {W : Type} (st : State (W * list ExternalCall))
  : State W :=
  {| world := (world st).1; log := log st |}.

(** A fresh traced run of the replaying collaborator. *)
Definition traced_replay (script : list (Outcome ChatResponse))
  : State (list (Outcome ChatResponse) * list ExternalCall) :=
  {| world := (script, []); log := [] |}.

Definition PermissionError : PyException :=
  {| exc_class := "PermissionError";
     exc_str := "[Errno 13] Permission denied" |}.

(** Any collaborator, on a file system that refuses every write. *)
Definition ReadOnly {W : Type} (C : Collaborators W) : Collaborators W :=
  {| ChatCompletion_create := @ChatCompletion_create W C;
     Document_add := @Document_add W C;
     Document_save _ _ w := (Raised PermissionError, w);
     Flowable_init := @Flowable_init W C;
     SimpleDocTemplate_build _ _ w := (Raised PermissionError, w) |}.

(** Document libraries that reject strings, the way the real ones do:
    python-docx refuses text with a control character (other than tab, line
    feed and carriage return), reportlab refuses a paragraph whose markup
    opens a tag and does not close it (here: a bold tag). *)
Definition control_character (c : Ascii.ascii) : bool :=
  let n := Ascii.nat_of_ascii c in
  (n <? 32) && negb (n =? 9) && negb (n =? 10) && negb (n =? 13).

Fixpoint has_control_character (s : string) : bool :=
  match s with
  | EmptyString => false
  | String c s' => control_character c || has_control_character s'
  end.

Fixpoint contains (needle hay : string) : bool :=
  String.prefix needle hay ||
  match hay with
  | EmptyString => false
  | String _ hay' => contains needle hay'
  end.

Definition unclosed_bold (s : string) : bool :=
  contains "<b>" s && negb (contains "</b>" s).

Definition XmlValueError : PyException :=
  {| exc_class := "ValueError";
     exc_str := "All strings must be XML compatible" |}.

Definition MarkupValueError : PyException :=
  {| exc_class := "ValueError";
     exc_str := "Parse error: saw </para> instead of expected </b>" |}.

Definition element_text (el : DocxElement) : string :=
  match el with
  | DocxHeading text _ => text
  | DocxParagraph text => text
  | DocxPageBreak => ""
  end.

Definition Strict {W : Type} (C : Collaborators W) : Collaborators W :=
  {| ChatCompletion_create := @ChatCompletion_create W C;
     Document_add el w :=
       if has_control_character (element_text el)
       then (Raised XmlValueError, w)
       else @Document_add W C el w;
     Document_save := @Document_save W C;
     Flowable_init fl w :=
       match fl with
       | Paragraph text _ =>
           if unclosed_bold text
           then (Raised MarkupValueError, w)
           else @Flowable_init W C fl w
       | Spacer _ _ => @Flowable_init W C fl w
       end;
     SimpleDocTemplate_build := @SimpleDocTemplate_build W C |}.

(** ** Sample inputs *)

Definition acme : PolicyConfig :=
  PolicyConfig.make "RGPD" "Acme" "Finance" "medium".

Definition acme_unknown : PolicyConfig :=
  PolicyConfig.make "UNKNOWN_FW" "Acme" "Finance" "medium".

Definition acme_fr : PolicyConfig :=
  PolicyConfig.mk "RGPD" "Acme" "Finance" "medium" "fr".

(** A run in which the second call hits the quota and the third gets a
    response without choices. *)
Definition flaky_script : list (Outcome ChatResponse) :=
  [ completion "Principles.";
    Raised RateLimitError;
    Returned {| choices := [] |};
    completion "Measures.";
    completion "Notification." ].

(** A run in which every call succeeds and the first one happens to
    return the very text of the placeholder. *)
Definition mimic_script : list (Outcome ChatResponse) :=
  [ completion (placeholder "Data Protection Principles");
    completion "Basis.";
    completion "Rights.";
    completion "Measures.";
    completion "Notification." ].

(** A run interrupted from the keyboard during its second call. *)
Definition interrupted_script : list (Outcome ChatResponse) :=
  [ completion "Principles."; RaisedBase KeyboardInterrupt ].

Definition sample_policy : PolicyRecord :=
  {| policy_title := "RGPD Security Policy - Acme";
     policy_framework := "RGPD";
     policy_sections :=
       [ {| section_title := "Data Protection Principles";
            section_content := "Principles." |};
         {| section_title := "Lawful Basis for Processing";
            section_content :=
              placeholder "Lawful Basis for Processing" |} ];
     policy_metadata :=
       {| meta_organization := "Acme";
          meta_industry := "Finance";
          meta_generated_by := generated_by |} |}.

(** The same record with another content for its first section. *)
Definition with_first_content (text : string) : PolicyRecord :=
  {| policy_title := policy_title sample_policy;
     policy_framework := policy_framework sample_policy;
     policy_sections :=
       [ {| section_title := "Data Protection Principles";
            section_content := text |};
         {| section_title := "Lawful Basis for Processing";
            section_content :=
              placeholder "Lawful Basis for Processing" |} ];
     policy_metadata := policy_metadata sample_policy |}.

(** A content with the control character BEL, and one with an unclosed
    bold tag. *)
Definition bell_policy : PolicyRecord :=
  with_first_content ("Principles." +:+ String (Ascii.ascii_of_nat 7) "").

Definition bold_policy : PolicyRecord :=
  with_first_content "<b>Principles.".

(** Two configurations whose prompts cannot be told apart: a line feed in
    the organization name of the first plays the part of the field
    separator. *)
Definition split_early : PolicyConfig :=
  PolicyConfig.make "RGPD" ("Acme" +:+ LF +:+ "Industry: Finance")
    "Retail" "medium".

Definition split_late : PolicyConfig :=
  PolicyConfig.make "RGPD" "Acme"
    ("Finance" +:+ LF +:+ "Industry: Retail") "medium".

Definition sample_process : Process :=
  {| environ := {[ "OPENAI_API_KEY" := "sk-env" ]};
     openai_api_key := None |}.



(** ** The outline table *)

Lemma framework_templates_lookup_Some framework titles :
  framework_templates !! framework = Some titles ->
  framework = "ISO27001" ∨ framework = "RGPD" ∨ framework = "NIS2".
Proof.
  unfold framework_templates.
  rewrite !lookup_insert_Some, lookup_empty.
  intros [[<- _]|[_ [[<- _]|[_ [[<- _]|[_ ?]]]]]]; auto; done.
Qed.

Lemma section_names_unknown framework :
  framework_templates !! framework = None -> section_names framework = [].
Proof. unfold section_names. by intros ->. Qed.

Lemma outline_length config :
  length (outline config) =
  5 `min` length (section_names (PolicyConfig.framework config)).
Proof. unfold outline. apply length_take. Qed.

(** ** Running the assembler *)

Section Assembler.
Context {W : Type} `{!Collaborators W}.

Lemma chat_outcomes_length requests (w : W) :
  length (chat_outcomes requests w).1 = length requests.
Proof.
  revert w. induction requests as [|request requests IH]; intros w; [done|].
  simpl. destruct (ChatCompletion_create request w) as [o w1].
  specialize (IH w1). destruct (chat_outcomes requests w1) as [os w2].
  simpl in *. by rewrite IH.
Qed.

(** One call of [_generate_section_content]: it returns the text of the
    collaborator, or the placeholder with one more diagnostic; only what the
    collaborator raises outside [Exception] comes out of it. *)
Lemma generate_section_content_run section_name config (st : State W) :
  _generate_section_content section_name config st =
  let (o, w) :=
    ChatCompletion_create (chat_request (prompt section_name config))
      (world st) in
  match o with
  | RaisedBase b => (RaisedBase b, {| world := w; log := log st |})
  | _ =>
      (Returned (section_content (section_of section_name o)),
       {| world := w; log := log st ++ diagnostics_of o |})
  end.
Proof.
  unfold _generate_section_content, try_except, bind, call.
  destruct (ChatCompletion_create _ (world st)) as [[response|e|b] w];
    unfold section_of, diagnostics_of, text_of; simpl.
  - unfold getitem. destruct (choices response) as [|choice rest]; simpl.
    + reflexivity.
    + by rewrite app_nil_r.
  - reflexivity.
  - reflexivity.
Qed.

Lemma for_section_name_run names config sections (st : State W) :
  forallb (fun o => negb (interrupts o))
    (chat_outcomes
       (map (fun section_name => chat_request (prompt section_name config))
            names)
       (world st)).1 = true ->
  for_section_name names config sections st =
  (Returned
     (sections ++
      zip_with section_of names
        (chat_outcomes
           (map (fun section_name =>
                   chat_request (prompt section_name config)) names)
           (world st)).1),
   {| world :=
        (chat_outcomes
           (map (fun section_name =>
                   chat_request (prompt section_name config)) names)
           (world st)).2;
      log :=
        log st ++
        concat
          (map diagnostics_of
             (chat_outcomes
                (map (fun section_name =>
                        chat_request (prompt section_name config)) names)
                (world st)).1) |}).
Proof.
  revert sections st.
  induction names as [|section_name names IH]; intros sections st; simpl.
  - intros _. unfold ret. rewrite !app_nil_r. by destruct st.
  - unfold bind at 1. rewrite generate_section_content_run.
    destruct (ChatCompletion_create _ (world st)) as [o w1].
    destruct (chat_outcomes _ w1) as [os w2] eqn:Hrest. simpl.
    intros [Ho Hos]%andb_prop.
    destruct o as [response|e|b]; [| |discriminate Ho].
    + rewrite IH; simpl; rewrite Hrest; [|exact Hos]. simpl.
      by rewrite <- !(assoc_L (++)).
    + rewrite IH; simpl; rewrite Hrest; [|exact Hos]. simpl.
      by rewrite <- !(assoc_L (++)).
Qed.


(** The whole of an uninterrupted run of [generate_policy], in one
    equation. *)
Lemma generate_policy_run config (st : State W) :
  uninterrupted config st ->
  generate_policy config st =
  (Returned
     {| policy_title :=
          PolicyConfig.framework config +:+ " Security Policy - "
            +:+ PolicyConfig.organization_name config;
        policy_framework := PolicyConfig.framework config;
        policy_sections :=
          zip_with section_of (outline config) (policy_outcomes config st);
        policy_metadata :=
          {| meta_organization := PolicyConfig.organization_name config;
             meta_industry := PolicyConfig.industry config;
             meta_generated_by := generated_by |} |},
   {| world :=
        (chat_outcomes
           (map (fun section_name =>
                   chat_request (prompt section_name config))
                (outline config))
           (world st)).2;
      log := log st ++ generating_event config ::
             concat (map diagnostics_of (policy_outcomes config st)) |}).
Proof.
  unfold uninterrupted, policy_outcomes. intros Hrun.
  unfold generate_policy, _generate_policy_sections.
  unfold bind at 1. unfold logger_info, logger_emit.
  unfold bind at 1. fold (outline config).
  rewrite for_section_name_run by exact Hrun.
  unfold ret, generating_event. simpl. by rewrite <- (assoc_L (++)).
Qed.


Lemma policy_outcomes_length config (st : State W) :
  length (policy_outcomes config st) = length (outline config).
Proof.
  unfold policy_outcomes. by rewrite chat_outcomes_length, length_map.
Qed.

Lemma zip_section_of_titles (names : list string)
    (os : list (Outcome ChatResponse)) :
  length os = length names ->
  map section_title (zip_with section_of names os) = names.
Proof.
  revert os. induction names as [|n names IH]; intros [|o os] Hlen;
    simpl in *; try done.
  f_equal. apply IH. lia.
Qed.

(** A run without collaborator calls is uninterrupted. *)
Lemma uninterrupted_unknown config (st : State W) :
  framework_templates !! PolicyConfig.framework config = None ->
  uninterrupted config st.
Proof.
  intros Hunknown. unfold uninterrupted, policy_outcomes, outline.
  by rewrite (section_names_unknown _ Hunknown).
Qed.

End Assembler.

Lemma take_min_length {A} (n : nat) (l : list A) :
  take (n `min` length l) l = take n l.
Proof.
  destruct (Nat.min_spec n (length l)) as [[_ Hmin]|[Hle Hmin]];
    rewrite Hmin; [done|].
  by rewrite firstn_all, take_ge.
Qed.

(** C6: for every framework that is a key of the outline table, the list of
    section titles looked up for it is non-empty and has no title twice. *)
Theorem section_names_known_nonempty_nodup framework :
  is_Some (framework_templates !! framework) ->
  section_names framework ≠ [] ∧ NoDup (section_names framework).
Proof.
  intros [titles Hkey].
  destruct (framework_templates_lookup_Some _ _ Hkey) as [-> | [-> | ->]];
    (split; [done|]);
    apply (bool_decide_unpack _); vm_compute; reflexivity.
Qed.

Lemma section_names_known_nonempty_nodup_witness :
  is_Some (framework_templates !! "NIS2") ∧
  section_names "NIS2" ≠ [] ∧ NoDup (section_names "NIS2").
Proof.
  assert (Hkey : is_Some (framework_templates !! "NIS2"))
    by (eexists; vm_compute; reflexivity).
  split; [exact Hkey|].
  exact (section_names_known_nonempty_nodup "NIS2" Hkey).
Defined.

Section AssemblerProperties.
Context {W : Type} `{!Collaborators W}.

(** C1: for every configuration, [generate_policy] (in a run none of whose
    collaborator calls raises outside [Exception]) returns a record whose
    section list has exactly min(5, n) entries, n being the length of the
    outline of the configured framework; the titles of these sections are
    the first min(5, n) titles of the outline, in outline order; and there
    are never more than 5 of them. *)
Theorem generate_policy_first_five config (st : State W) :
  uninterrupted config st ->
  ∃ policy st',
    generate_policy config st = (Returned policy, st') ∧
    length (policy_sections policy) =
      5 `min` length (section_names (PolicyConfig.framework config)) ∧
    map section_title (policy_sections policy) =
      take (5 `min` length (section_names (PolicyConfig.framework config)))
           (section_names (PolicyConfig.framework config)) ∧
    length (policy_sections policy) ≤ 5.
Proof.
  intros Hrun. rewrite generate_policy_run by exact Hrun.
  eexists _, _. split; [reflexivity|].
  cbn [policy_sections].
  assert (Htitles :
    map section_title
      (zip_with section_of (outline config) (policy_outcomes config st))
    = outline config)
    by (apply zip_section_of_titles, policy_outcomes_length).
  assert (Hlen :
    length (zip_with section_of (outline config) (policy_outcomes config st))
    = 5 `min` length (section_names (PolicyConfig.framework config))).
  { rewrite <- (length_map section_title), Htitles. apply outline_length. }
  split; [exact Hlen|]. split; [|lia].
  rewrite Htitles, take_min_length. reflexivity.
Qed.

(** C2: for the configuration RGPD / Acme / Finance / medium (whatever its
    language), [generate_policy] (in a run none of whose collaborator calls
    raises outside [Exception]) returns a record titled
    "RGPD Security Policy - Acme" with exactly the five sections
    "Data Protection Principles", "Lawful Basis for Processing",
    "Data Subject Rights", "Data Security Measures" and
    "Data Breach Notification", in that order. *)
Theorem generate_policy_rgpd_acme language (st : State W) :
  uninterrupted
    (PolicyConfig.mk "RGPD" "Acme" "Finance" "medium" language) st ->
  ∃ policy st',
    generate_policy
      (PolicyConfig.mk "RGPD" "Acme" "Finance" "medium" language) st
    = (Returned policy, st') ∧
    policy_title policy = "RGPD Security Policy - Acme" ∧
    length (policy_sections policy) = 5 ∧
    map section_title (policy_sections policy) =
      [ "Data Protection Principles";
        "Lawful Basis for Processing";
        "Data Subject Rights";
        "Data Security Measures";
        "Data Breach Notification" ].
Proof.
  intros Hrun. rewrite generate_policy_run by exact Hrun.
  eexists _, _. split; [reflexivity|].
  split; [reflexivity|]. simpl policy_sections.
  assert (Htitles :
    map section_title
      (zip_with section_of
         (outline (PolicyConfig.mk "RGPD" "Acme" "Finance" "medium" language))
         (policy_outcomes
            (PolicyConfig.mk "RGPD" "Acme" "Finance" "medium" language) st))
    = [ "Data Protection Principles";
        "Lawful Basis for Processing";
        "Data Subject Rights";
        "Data Security Measures";
        "Data Breach Notification" ]).
  { rewrite zip_section_of_titles by apply policy_outcomes_length.
    vm_compute. reflexivity. }
  split; [|exact Htitles].
  rewrite <- (length_map section_title), Htitles. reflexivity.
Qed.

(** C3: when the configured framework is not a key of the outline table,
    [generate_policy] does not fail: it returns the record titled
    "<framework> Security Policy - <organization_name>" with an empty
    section list (and has not called the collaborator). *)
Theorem generate_policy_unknown_framework config (st : State W) :
  framework_templates !! PolicyConfig.framework config = None ->
  generate_policy config st =
  (Returned
     {| policy_title :=
          PolicyConfig.framework config +:+ " Security Policy - "
            +:+ PolicyConfig.organization_name config;
        policy_framework := PolicyConfig.framework config;
        policy_sections := [];
        policy_metadata :=
          {| meta_organization := PolicyConfig.organization_name config;
             meta_industry := PolicyConfig.industry config;
             meta_generated_by := generated_by |} |},
   {| world := world st; log := log st ++ [generating_event config] |}).
Proof.
  intros Hunknown.
  rewrite generate_policy_run by by apply uninterrupted_unknown.
  unfold policy_outcomes, outline.
  rewrite (section_names_unknown _ Hunknown). reflexivity.
Qed.


End AssemblerProperties.

Lemma generate_policy_first_five_witness :
  uninterrupted acme (replay flaky_script) ∧
  ∃ policy st',
    generate_policy acme (replay flaky_script) = (Returned policy, st') ∧
    length (policy_sections policy) = 5 ∧
    map section_title (policy_sections policy) = take 5 (section_names "RGPD").
Proof.
  assert (Hrun : uninterrupted acme (replay flaky_script))
    by (vm_compute; reflexivity).
  split; [exact Hrun|].
  destruct (generate_policy_first_five acme (replay flaky_script) Hrun)
    as (policy & st' & Hpolicy & Hlen & Htitles & _).
  exists policy, st'. split; [exact Hpolicy|].
  split; [exact Hlen|exact Htitles].
Defined.

Lemma generate_policy_rgpd_acme_witness :
  uninterrupted acme (replay flaky_script) ∧
  ∃ policy st',
    generate_policy acme (replay flaky_script) = (Returned policy, st') ∧
    policy_title policy = "RGPD Security Policy - Acme" ∧
    length (policy_sections policy) = 5.
Proof.
  assert (Hrun : uninterrupted acme (replay flaky_script))
    by (vm_compute; reflexivity).
  split; [exact Hrun|].
  destruct (generate_policy_rgpd_acme "en" (replay flaky_script) Hrun)
    as (policy & st' & Hpolicy & Htitle & Hlen & _).
  exists policy, st'. split; [exact Hpolicy|].
  split; [exact Htitle|exact Hlen].
Defined.

Lemma generate_policy_unknown_framework_witness :
  framework_templates !! "UNKNOWN_FW" = None ∧
  generate_policy acme_unknown (replay []) =
  (Returned
     {| policy_title := "UNKNOWN_FW Security Policy - Acme";
        policy_framework := "UNKNOWN_FW";
        policy_sections := [];
        policy_metadata :=
          {| meta_organization := "Acme";
             meta_industry := "Finance";
             meta_generated_by := generated_by |} |},
   {| world := []; log := [generating_event acme_unknown] |}).
Proof.
  assert (Hunknown : framework_templates !! "UNKNOWN_FW" = None)
    by (vm_compute; reflexivity).
  split; [exact Hunknown|].
  exact (generate_policy_unknown_framework acme_unknown (replay []) Hunknown).
Defined.



Section Isolation.
Context {W : Type} `{!Collaborators W}.

Lemma diagnostics_logged (os : list (Outcome ChatResponse)) i o e :
  os !! i = Some o -> text_of o = Raised e ->
  failure_event e ∈ concat (map diagnostics_of os).
Proof.
  intros Hi Hfail. apply list_elem_of_In, in_concat.
  exists (diagnostics_of o). split.
  - apply in_map, list_elem_of_In. by eapply list_elem_of_lookup_2.
  - unfold diagnostics_of. rewrite Hfail. by left.
Qed.

Lemma policy_sections_lookup config (st : State W) j section_name o :
  outline config !! j = Some section_name ->
  policy_outcomes config st !! j = Some o ->
  zip_with section_of (outline config) (policy_outcomes config st) !! j
  = Some (section_of section_name o).
Proof. intros Hname Ho. rewrite lookup_zip_with, Hname. simpl. by rewrite Ho. Qed.

(** C4: if the collaborator call made for a section title fails (it raises
    an [Exception], or its response has no first choice), then, in a run
    none of whose calls raises outside [Exception], [generate_policy] still
    returns; the content of that section is exactly
    "[Section content for <title>]"; the diagnostic event of the failure is
    in the log; and every other section is the one its own call gives it:
    a second run whose calls end as in this one except for the failed call
    returns the same section at every other position. *)
Theorem collaborator_failure_is_contained
    config (st : State W) i section_name o e :
  uninterrupted config st ->
  outline config !! i = Some section_name ->
  policy_outcomes config st !! i = Some o ->
  text_of o = Raised e ->
  ∃ policy st',
    generate_policy config st = (Returned policy, st') ∧
    policy_sections policy !! i =
      Some {| section_title := section_name;
              section_content := placeholder section_name |} ∧
    failure_event e ∈ log st' ∧
    (∀ j name_j o_j,
       j ≠ i ->
       outline config !! j = Some name_j ->
       policy_outcomes config st !! j = Some o_j ->
       policy_sections policy !! j = Some (section_of name_j o_j)) ∧
    (∀ st2 : State W,
       uninterrupted config st2 ->
       (∀ j, j ≠ i ->
          policy_outcomes config st2 !! j = policy_outcomes config st !! j) ->
       ∃ policy2 st2',
         generate_policy config st2 = (Returned policy2, st2') ∧
         ∀ j, j ≠ i ->
           policy_sections policy2 !! j = policy_sections policy !! j).
Proof.
  intros Hrun Hname Ho Hfail. rewrite generate_policy_run by exact Hrun.
  eexists _, _. split; [reflexivity|]. cbn [policy_sections log].
  split; [|split; [|split]].
  - rewrite (policy_sections_lookup _ _ _ _ _ Hname Ho).
    unfold section_of. by rewrite Hfail.
  - apply elem_of_app. right. apply elem_of_cons. right.
    by eapply diagnostics_logged.
  - intros j name_j o_j _ Hname_j Ho_j. by apply policy_sections_lookup.
  - intros st2 Hrun2 Hsame. rewrite generate_policy_run by exact Hrun2.
    eexists _, _. split; [reflexivity|]. cbn [policy_sections].
    intros j Hj. rewrite !lookup_zip_with. by rewrite (Hsame j Hj).
Qed.

Lemma for_section_name_language (c1 c2 : PolicyConfig) :
  (∀ section_name (st : State W),
     _generate_section_content section_name c1 st
     = _generate_section_content section_name c2 st) ->
  ∀ names sections (st : State W),
    for_section_name names c1 sections st
    = for_section_name names c2 sections st.
Proof.
  intros Hcontent names.
  induction names as [|section_name names IH]; intros sections st; simpl.
  - reflexivity.
  - unfold bind. rewrite Hcontent.
    destruct (_generate_section_content section_name c2 st)
      as [[text|e|b] st1]; [apply IH|reflexivity|reflexivity].
Qed.

(** C9: two configurations that differ only in [language] get the same
    prompt for every section title and, run against the same collaborator
    from the same state, the same outcome of [generate_policy]: the same
    record, the same log, the same requests sent. *)
Theorem generation_ignores_language (c1 c2 : PolicyConfig) :
  same_up_to_language c1 c2 ->
  (∀ section_name, prompt section_name c1 = prompt section_name c2) ∧
  (∀ st : State W, generate_policy c1 st = generate_policy c2 st).
Proof.
  destruct c1 as [f1 o1 i1 s1 l1], c2 as [f2 o2 i2 s2 l2].
  unfold same_up_to_language. simpl. intros (-> & -> & -> & ->).
  split; [reflexivity|].
  intros st. unfold generate_policy, _generate_policy_sections.
  unfold bind at 1 3. unfold logger_info, logger_emit.
  unfold bind. simpl.
  rewrite (for_section_name_language
             (PolicyConfig.mk f2 o2 i2 s2 l1) (PolicyConfig.mk f2 o2 i2 s2 l2))
    by reflexivity.
  reflexivity.
Qed.

End Isolation.

Lemma collaborator_failure_is_contained_witness :
  uninterrupted acme (replay flaky_script) ∧
  outline acme !! 1 = Some "Lawful Basis for Processing" ∧
  policy_outcomes acme (replay flaky_script) !! 1
    = Some (Raised RateLimitError) ∧
  text_of (Raised RateLimitError) = Raised RateLimitError ∧
  ∃ policy st',
    generate_policy acme (replay flaky_script) = (Returned policy, st') ∧
    policy_sections policy !! 1 =
      Some {| section_title := "Lawful Basis for Processing";
              section_content :=
                "[Section content for Lawful Basis for Processing]" |} ∧
    failure_event RateLimitError ∈ log st' ∧
    policy_sections policy !! 0 =
      Some {| section_title := "Data Protection Principles";
              section_content := "Principles." |}.
Proof.
  assert (Hrun : uninterrupted acme (replay flaky_script))
    by (vm_compute; reflexivity).
  assert (Hname : outline acme !! 1 = Some "Lawful Basis for Processing")
    by (vm_compute; reflexivity).
  assert (Ho : policy_outcomes acme (replay flaky_script) !! 1
               = Some (Raised RateLimitError))
    by (vm_compute; reflexivity).
  assert (Hfail : text_of (Raised RateLimitError) = Raised RateLimitError)
    by reflexivity.
  repeat (split; [assumption|]).
  destruct (collaborator_failure_is_contained
              acme (replay flaky_script) 1 _ _ _ Hrun Hname Ho Hfail)
    as (policy & st' & Hpolicy & Hsection & Hlog & Hothers & _).
  exists policy, st'. repeat (split; [assumption|]).
  apply (Hothers 0 "Data Protection Principles" (completion "Principles."));
    [lia | vm_compute; reflexivity | vm_compute; reflexivity].
Defined.

Lemma generation_ignores_language_witness :
  same_up_to_language acme acme_fr ∧
  prompt "Data Subject Rights" acme = prompt "Data Subject Rights" acme_fr ∧
  generate_policy acme (replay flaky_script)
    = generate_policy acme_fr (replay flaky_script).
Proof.
  assert (Hsame : same_up_to_language acme acme_fr)
    by (repeat split; reflexivity).
  split; [exact Hsame|].
  destruct (generation_ignores_language (W := list (Outcome ChatResponse))
              acme acme_fr Hsame) as [Hprompt Hrun].
  split; [apply Hprompt|apply Hrun].
Defined.

(** C10: when the collaborator call made for a section succeeds (in a run
    none of whose calls raises outside [Exception]), the content stored for
    that section is the text of the response's first choice, unchanged.
    Consequently a content equal to the placeholder does not show that a
    call failed: there is a run in which every call succeeds and nothing but
    the start of the run is logged, and yet a section holds the placeholder
    of its own title. *)
Theorem collaborator_text_is_stored_verbatim :
  (∀ (W : Type) (C : Collaborators W) config (st : State W)
     i section_name response choice rest,
     uninterrupted config st ->
     outline config !! i = Some section_name ->
     policy_outcomes config st !! i = Some (Returned response) ->
     choices response = choice :: rest ->
     ∃ policy st',
       generate_policy config st = (Returned policy, st') ∧
       policy_sections policy !! i =
         Some {| section_title := section_name;
                 section_content := content (message choice) |}) ∧
  (∃ (W : Type) (C : Collaborators W) config (st : State W) policy st'
     i section,
     generate_policy config st = (Returned policy, st') ∧
     Forall (fun o => ∃ text, text_of o = Returned text)
            (policy_outcomes config st) ∧
     log st' = log st ++ [generating_event config] ∧
     policy_sections policy !! i = Some section ∧
     section_content section = placeholder (section_title section)).
Proof.
  split.
  - intros W C config st i section_name response choice rest
      Hrun Hname Ho Hch.
    rewrite generate_policy_run by exact Hrun.
    eexists _, _. split; [reflexivity|].
    cbn [policy_sections].
    rewrite (policy_sections_lookup _ _ _ _ _ Hname Ho).
    unfold section_of, text_of. by rewrite Hch.
  - exists (list (Outcome ChatResponse)), Replay, acme, (replay mimic_script).
    eexists _, _, 0, _.
    split; [apply generate_policy_run; vm_compute; reflexivity|].
    split; [|split; [|split]].
    + vm_compute. repeat constructor; eexists; reflexivity.
    + vm_compute. reflexivity.
    + vm_compute. reflexivity.
    + vm_compute. reflexivity.
Qed.

Lemma collaborator_text_is_stored_verbatim_witness :
  uninterrupted acme (replay flaky_script) ∧
  outline acme !! 3 = Some "Data Security Measures" ∧
  policy_outcomes acme (replay flaky_script) !! 3
    = Some (completion "Measures.") ∧
  ∃ policy st',
    generate_policy acme (replay flaky_script) = (Returned policy, st') ∧
    policy_sections policy !! 3 =
      Some {| section_title := "Data Security Measures";
              section_content := "Measures." |}.
Proof.
  assert (Hrun : uninterrupted acme (replay flaky_script))
    by (vm_compute; reflexivity).
  assert (Hname : outline acme !! 3 = Some "Data Security Measures")
    by (vm_compute; reflexivity).
  assert (Ho : policy_outcomes acme (replay flaky_script) !! 3
               = Some (completion "Measures."))
    by (vm_compute; reflexivity).
  repeat (split; [assumption|]).
  exact (proj1 collaborator_text_is_stored_verbatim
           _ _ acme (replay flaky_script) 3 _ _ _ [] Hrun Hname Ho eq_refl).
Defined.

(** ** Running the exporters *)

Section ExporterRuns.
Context {W : Type} `{!Collaborators W}.

Lemma bind_assoc {A B D} (m : M W A) (f : A -> M W B) (k : B -> M W D)
    (st : State W) :
  bind (bind m f) k st = bind m (fun a => bind (f a) k) st.
Proof. unfold bind. by destruct (m st) as [[a|e|b] st']. Qed.

Lemma bind_call {A B} (f : W -> Outcome A * W) (k : A -> M W B)
    (st : State W) :
  bind (call f) k st = and_then (f (world st)) (log st) k.
Proof.
  unfold bind, call, and_then. by destruct (f (world st)) as [[a|e|b] w].
Qed.

Lemma bind_call_ret {A B D} (f : W -> Outcome A * W) (x : B)
    (k : B -> M W D) (st : State W) :
  bind (bind (call f) (fun _ => ret x)) k st
  = and_then (f (world st)) (log st) (fun _ => k x).
Proof.
  unfold bind, call, ret, and_then.
  by destruct (f (world st)) as [[a|e|b] w].
Qed.

Lemma write_then_log_run (write : W -> Outcome unit * W)
    (format output_path : string) (st : State W) :
  bind (call write)
    (fun _ => logger_info ("Exported to " +:+ format)
                [("file", output_path)]) st
  = write_then_log write (exported_event format output_path) st.
Proof.
  rewrite bind_call. unfold write_then_log, and_then.
  by destruct (write (world st)) as [[[]|e|b] w].
Qed.

Lemma for_section_docx_run {B} sections (doc : Document)
    (k : Document -> M W B) (st : State W) :
  bind (for_section_docx sections doc) k st =
  and_then (run_all Document_add (flat_map docx_section sections) (world st))
    (log st) (fun _ => k (doc ++ flat_map docx_section sections)).
Proof.
  revert doc st.
  induction sections as [|section sections IH]; intros doc st.
  - simpl. unfold bind, ret, and_then. rewrite app_nil_r. by destruct st.
  - cbn [for_section_docx flat_map docx_section app run_all].
    unfold add_heading, add_paragraph, add_page_break.
    rewrite bind_assoc, bind_call_ret.
    destruct (Document_add _ (world st)) as [[[]|e|b] w1];
      cbn [and_then]; [|reflexivity|reflexivity].
    rewrite bind_assoc, bind_call_ret. cbn [world log].
    destruct (Document_add _ w1) as [[[]|e|b] w2];
      cbn [and_then]; [|reflexivity|reflexivity].
    rewrite bind_assoc, bind_call_ret. cbn [world log].
    destruct (Document_add _ w2) as [[[]|e|b] w3];
      cbn [and_then]; [|reflexivity|reflexivity].
    rewrite IH. cbn [world log].
    by rewrite <- !(assoc_L (++)).
Qed.

Lemma for_section_pdf_run {B} sections (story : list Flowable)
    (k : list Flowable -> M W B) (st : State W) :
  bind (for_section_pdf sections story) k st =
  and_then (run_all Flowable_init (flat_map pdf_section sections) (world st))
    (log st) (fun _ => k (story ++ flat_map pdf_section sections)).
Proof.
  revert story st.
  induction sections as [|section sections IH]; intros story st.
  - simpl. unfold bind, ret, and_then. rewrite app_nil_r. by destruct st.
  - cbn [for_section_pdf flat_map pdf_section app run_all].
    unfold append_new.
    rewrite bind_assoc, bind_call_ret.
    destruct (Flowable_init _ (world st)) as [[[]|e|b] w1];
      cbn [and_then]; [|reflexivity|reflexivity].
    rewrite bind_assoc, bind_call_ret. cbn [world log].
    destruct (Flowable_init _ w1) as [[[]|e|b] w2];
      cbn [and_then]; [|reflexivity|reflexivity].
    rewrite bind_assoc, bind_call_ret. cbn [world log].
    destruct (Flowable_init _ w2) as [[[]|e|b] w3];
      cbn [and_then]; [|reflexivity|reflexivity].
    rewrite bind_assoc, bind_call_ret. cbn [world log].
    destruct (Flowable_init _ w3) as [[[]|e|b] w4];
      cbn [and_then]; [|reflexivity|reflexivity].
    rewrite IH. cbn [world log].
    by rewrite <- !(assoc_L (++)).
Qed.

(** [export_to_docx] in one equation: the [add_*] calls of the layout, in
    order, as far as they return; then [doc.save] with the document built;
    then the log entry. *)
Lemma export_to_docx_run policy output_path (st : State W) :
  export_to_docx policy output_path st =
  and_then (run_all Document_add (docx_document policy) (world st)) (log st)
    (fun _ =>
       write_then_log (Document_save (docx_document policy) output_path)
         (exported_event "DOCX" output_path)).
Proof.
  unfold export_to_docx, docx_document.
  unfold add_heading, add_paragraph, add_page_break.
  cbn [app run_all].
  rewrite bind_call_ret.
  destruct (Document_add _ (world st)) as [[[]|e|b] w1];
    cbn [and_then]; [|reflexivity|reflexivity].
  rewrite bind_call_ret. cbn [world log].
  destruct (Document_add _ w1) as [[[]|e|b] w2];
    cbn [and_then]; [|reflexivity|reflexivity].
  rewrite bind_call_ret. cbn [world log].
  destruct (Document_add _ w2) as [[[]|e|b] w3];
    cbn [and_then]; [|reflexivity|reflexivity].
  rewrite bind_call_ret. cbn [world log].
  destruct (Document_add _ w3) as [[[]|e|b] w4];
    cbn [and_then]; [|reflexivity|reflexivity].
  rewrite bind_call_ret. cbn [world log].
  destruct (Document_add _ w4) as [[[]|e|b] w5];
    cbn [and_then]; [|reflexivity|reflexivity].
  rewrite for_section_docx_run. cbn [world log].
  destruct (run_all Document_add _ w5) as [[[]|e|b] w6];
    cbn [and_then]; [|reflexivity|reflexivity].
  apply (write_then_log_run _ "DOCX").
Qed.

Lemma export_to_pdf_run policy output_path (st : State W) :
  export_to_pdf policy output_path st =
  and_then (run_all Flowable_init (pdf_story policy) (world st)) (log st)
    (fun _ =>
       write_then_log
         (SimpleDocTemplate_build
            {| filename := output_path; pagesize := letter |}
            (pdf_story policy))
         (exported_event "PDF" output_path)).
Proof.
  unfold export_to_pdf, pdf_story. unfold append_new.
  cbn [app run_all].
  rewrite bind_call_ret.
  destruct (Flowable_init _ (world st)) as [[[]|e|b] w1];
    cbn [and_then]; [|reflexivity|reflexivity].
  rewrite bind_call_ret. cbn [world log].
  destruct (Flowable_init _ w1) as [[[]|e|b] w2];
    cbn [and_then]; [|reflexivity|reflexivity].
  rewrite bind_call_ret. cbn [world log].
  destruct (Flowable_init _ w2) as [[[]|e|b] w3];
    cbn [and_then]; [|reflexivity|reflexivity].
  rewrite bind_call_ret. cbn [world log].
  destruct (Flowable_init _ w3) as [[[]|e|b] w4];
    cbn [and_then]; [|reflexivity|reflexivity].
  rewrite for_section_pdf_run. cbn [world log].
  destruct (run_all Flowable_init _ w4) as [[[]|e|b] w5];
    cbn [and_then]; [|reflexivity|reflexivity].
  apply (write_then_log_run _ "PDF").
Qed.

End ExporterRuns.

(** ** The layouts *)

Lemma docx_section_markers (sections : list PolicySection) :
  docx_headings (flat_map docx_section sections)
    = map (fun section => (section_title section, 1)) sections ∧
  docx_paragraphs (flat_map docx_section sections)
    = map section_content sections.
Proof.
  induction sections as [|section sections [IHh IHp]]; [done|].
  unfold docx_headings, docx_paragraphs in *. simpl.
  split; f_equal; [exact IHh|exact IHp].
Qed.

Lemma pdf_section_markers (sections : list PolicySection) :
  pdf_headings (flat_map pdf_section sections)
    = map (fun section => (section_title section, Heading1)) sections ∧
  pdf_paragraphs (flat_map pdf_section sections)
    = map section_content sections.
Proof.
  induction sections as [|section sections [IHh IHp]]; [done|].
  unfold pdf_headings, pdf_paragraphs in *. simpl.
  split; f_equal; [exact IHh|exact IHp].
Qed.


(** ** Journals *)


Lemma attempted_prefix {W A} (f : A -> W -> Outcome unit * W) xs (w : W) :
  attempted f xs w `prefix_of` xs.
Proof.
  revert w. induction xs as [|x xs IH]; intros w; simpl; [done|].
  destruct (f x w) as [[[]|e|b] w2].
  - by apply prefix_cons.
  - by exists xs.
  - by exists xs.
Qed.

Lemma run_all_journal {W A} (f : A -> W -> Outcome unit * W)
    (g : A -> ExternalCall) xs (s : W * list ExternalCall) :
  run_all
    (fun x (s : W * list ExternalCall) =>
       let (o, w) := f x s.1 in (o, (w, s.2 ++ [g x]))) xs s
  = ((run_all f xs s.1).1,
     ((run_all f xs s.1).2, s.2 ++ map g (attempted f xs s.1))).
Proof.
  revert s. induction xs as [|x xs IH]; intros [w tr]; simpl.
  - by rewrite app_nil_r.
  - destruct (f x w) as [[[]|e|b] w1]; simpl.
    + rewrite IH. simpl. by rewrite <- (assoc_L (++)).
    + reflexivity.
    + reflexivity.
Qed.



(** The journal after an export: the calls made while the document is
    built, then the call of the writer if all of them returned. *)
Lemma export_to_docx_journal {W : Type} (C : Collaborators W)
    policy output_path (st : State (W * list ExternalCall)) :
  (world (@export_to_docx _ (Traced C) policy output_path st).2).2 =
  (world st).2 ++
  map AddCall
    (attempted (@Document_add W C) (docx_document policy) (world st).1) ++
  match (run_all (@Document_add W C) (docx_document policy) (world st).1).1
  with
  | Returned _ => [SaveCall (docx_document policy) output_path]
  | _ => []
  end.
Proof.
  rewrite export_to_docx_run.
  change (@Document_add _ (Traced C))
    with (fun x (s : W * list ExternalCall) =>
            let (o, w) := @Document_add W C x s.1 in
            (o, (w, s.2 ++ [AddCall x]))).
  rewrite run_all_journal.
  destruct (run_all (@Document_add W C) _ (world st).1) as [[[]|e|b] w1];
    cbn [and_then fst snd world]; rewrite ?app_nil_r; try reflexivity.
  unfold write_then_log. cbn [world log Document_save Traced fst snd].
  destruct (@Document_save W C _ _ w1) as [[[]|e|b] w2];
    cbn [and_then world fst snd]; by rewrite <- (assoc_L (++)).
Qed.

Lemma export_to_pdf_journal {W : Type} (C : Collaborators W)
    policy output_path (st : State (W * list ExternalCall)) :
  (world (@export_to_pdf _ (Traced C) policy output_path st).2).2 =
  (world st).2 ++
  map FlowableCall
    (attempted (@Flowable_init W C) (pdf_story policy) (world st).1) ++
  match (run_all (@Flowable_init W C) (pdf_story policy) (world st).1).1
  with
  | Returned _ =>
      [BuildCall {| filename := output_path; pagesize := letter |}
                 (pdf_story policy)]
  | _ => []
  end.
Proof.
  rewrite export_to_pdf_run.
  change (@Flowable_init _ (Traced C))
    with (fun x (s : W * list ExternalCall) =>
            let (o, w) := @Flowable_init W C x s.1 in
            (o, (w, s.2 ++ [FlowableCall x]))).
  rewrite run_all_journal.
  destruct (run_all (@Flowable_init W C) _ (world st).1) as [[[]|e|b] w1];
    cbn [and_then fst snd world]; rewrite ?app_nil_r; try reflexivity.
  unfold write_then_log.
  cbn [world log SimpleDocTemplate_build Traced fst snd].
  destruct (@SimpleDocTemplate_build W C _ _ w1) as [[[]|e|b] w2];
    cbn [and_then world fst snd]; by rewrite <- (assoc_L (++)).
Qed.

(** ** The exporters *)

Section Exporters.
Context {W : Type} `{!Collaborators W}.


End Exporters.






(** ** Beyond the claims: calls, log and truncation *)

Lemma chat_outcomes_traced {W : Type} (C : Collaborators W)
    (requests : list ChatRequest) (s : W * list ExternalCall) :
  @chat_outcomes _ (Traced C) requests s =
  ((@chat_outcomes _ C requests s.1).1,
   ((@chat_outcomes _ C requests s.1).2, s.2 ++ map ChatCall requests)).
Proof.
  revert s. induction requests as [|request requests IH]; intros [w tr].
  - simpl. by rewrite app_nil_r.
  - simpl. destruct (@ChatCompletion_create W C request w) as [o w1].
    rewrite IH. simpl.
    destruct (@chat_outcomes _ C requests w1) as [os w2]. simpl.
    by rewrite <- (assoc_L (++)).
Qed.

Lemma policy_outcomes_traced {W : Type} (C : Collaborators W)
    config (st : State (W * list ExternalCall)) :
  @policy_outcomes _ (Traced C) config st
  = @policy_outcomes _ C config (untraced st).
Proof. unfold policy_outcomes. by rewrite chat_outcomes_traced. Qed.

Lemma uninterrupted_traced {W : Type} (C : Collaborators W)
    config (st : State (W * list ExternalCall)) :
  @uninterrupted _ C config (untraced st) ->
  @uninterrupted _ (Traced C) config st.
Proof. unfold uninterrupted. by rewrite policy_outcomes_traced. Qed.

Lemma generate_policy_requests_aux {W : Type} (C : Collaborators W)
    config (st : State (W * list ExternalCall)) :
  @uninterrupted _ C config (untraced st) ->
  ∃ policy st',
    @generate_policy _ (Traced C) config st = (Returned policy, st') ∧
    @generate_policy _ C config (untraced st)
      = (Returned policy, untraced st') ∧
    policy_title policy =
      PolicyConfig.framework config +:+ " Security Policy - "
        +:+ PolicyConfig.organization_name config ∧
    map section_title (policy_sections policy) = outline config ∧
    (world st').2 =
      (world st).2 ++
      map (fun section_name =>
             ChatCall (chat_request (prompt section_name config)))
          (outline config).
Proof.
  intros Hrun.
  rewrite (generate_policy_run config (untraced st)) by exact Hrun.
  rewrite generate_policy_run by by apply uninterrupted_traced.
  rewrite !policy_outcomes_traced, chat_outcomes_traced.
  eexists _, _. split; [reflexivity|].
  split; [reflexivity|]. split; [reflexivity|].
  cbn [policy_sections world fst snd]. split.
  - apply zip_section_of_titles, policy_outcomes_length.
  - by rewrite map_map.
Qed.

(** X1: a run of [generate_policy] none of whose calls raises outside
    [Exception] sends the collaborator exactly one request per title of the
    truncated outline, in outline order, whatever the calls return and
    whichever [Exception] they raise (nothing is retried, nothing is
    skipped), and calls neither document library; the journal does not
    change the run. *)
Theorem generate_policy_requests {W : Type} (C : Collaborators W)
    config (st : State (W * list ExternalCall)) :
  @uninterrupted _ C config (untraced st) ->
  ∃ policy st',
    @generate_policy _ (Traced C) config st = (Returned policy, st') ∧
    @generate_policy _ C config (untraced st) = (Returned policy, untraced st') ∧
    (world st').2 =
      (world st).2 ++
      map (fun section_name =>
             ChatCall (chat_request (prompt section_name config)))
          (outline config).
Proof.
  intros Hrun.
  destruct (generate_policy_requests_aux C config st Hrun)
    as (policy & st' & Htraced & Hplain & _ & _ & Hjournal).
  by exists policy, st'.
Qed.

Lemma generate_policy_requests_witness :
  @uninterrupted _ Replay acme (untraced (traced_replay flaky_script)) ∧
  ∃ policy st',
    @generate_policy _ (Traced Replay) acme (traced_replay flaky_script)
      = (Returned policy, st') ∧
    length (world st').2 = 5.
Proof.
  assert (Hrun : @uninterrupted _ Replay acme
                   (untraced (traced_replay flaky_script)))
    by (vm_compute; reflexivity).
  split; [exact Hrun|].
  destruct (generate_policy_requests Replay acme
              (traced_replay flaky_script) Hrun)
    as (policy & st' & Htraced & _ & Hjournal).
  exists policy, st'. split; [exact Htraced|].
  rewrite Hjournal. vm_compute. reflexivity.
Defined.

Lemma diagnostics_failures (os : list (Outcome ChatResponse)) :
  concat (map diagnostics_of os) = map failure_event (failures os).
Proof.
  unfold failures. induction os as [|o os IH]; [done|].
  cbn [map concat]. rewrite IH. unfold diagnostics_of. simpl.
  by destruct (text_of o).
Qed.

Lemma failures_length (os : list (Outcome ChatResponse)) :
  length (failures os) ≤ length os.
Proof.
  unfold failures. induction os as [|o os IH]; [done|].
  simpl. unfold omap in IH. destruct (text_of o); simpl; lia.
Qed.

Section Journal.
Context {W : Type} `{!Collaborators W}.

(** X2: a run of [generate_policy] none of whose calls raises outside
    [Exception] only appends to the log: first the "Generating policy"
    event, then one "LLM generation failed" event per failed call, in call
    order, carrying [str(e)]; so a run adds at most six events, and exactly
    one when no call fails. *)
Theorem generate_policy_log config (st : State W) :
  uninterrupted config st ->
  ∃ policy st',
    generate_policy config st = (Returned policy, st') ∧
    log st' =
      log st ++ generating_event config ::
      map failure_event (failures (policy_outcomes config st)) ∧
    length (log st') ≤ length (log st) + 6 ∧
    (failures (policy_outcomes config st) = [] <->
     log st' = log st ++ [generating_event config]).
Proof.
  intros Hrun. rewrite generate_policy_run by exact Hrun.
  eexists _, _. split; [reflexivity|].
  cbn [log]. rewrite diagnostics_failures. split; [reflexivity|]. split.
  - rewrite length_app. cbn [length]. rewrite length_map.
    pose proof (failures_length (policy_outcomes config st)) as Hle.
    rewrite policy_outcomes_length in Hle.
    pose proof (outline_length config). lia.
  - split.
    + by intros ->.
    + intros Heq. apply (inj (app (log st))) in Heq.
      injection Heq as Heq. by apply map_eq_nil in Heq.
Qed.

(** X3: the sections of a generated policy (of a run none of whose calls
    raises outside [Exception]) number none or five: none for a framework
    missing from the table, five for each framework in it; and for those at
    least two titles of the outline are never generated. *)
Theorem generate_policy_none_or_five config (st : State W) :
  uninterrupted config st ->
  ∃ policy st',
    generate_policy config st = (Returned policy, st') ∧
    ((framework_templates !! PolicyConfig.framework config = None ∧
      policy_sections policy = []) ∨
     (is_Some (framework_templates !! PolicyConfig.framework config) ∧
      length (policy_sections policy) = 5 ∧
      7 ≤ length (section_names (PolicyConfig.framework config)))).
Proof.
  intros Hrun. rewrite generate_policy_run by exact Hrun.
  eexists _, _. split; [reflexivity|].
  cbn [policy_sections].
  assert (Hlen :
    length (zip_with section_of (outline config) (policy_outcomes config st))
    = 5 `min` length (section_names (PolicyConfig.framework config))).
  { rewrite <- (length_map section_title), zip_section_of_titles
      by apply policy_outcomes_length.
    apply outline_length. }
  destruct (framework_templates !! PolicyConfig.framework config)
    as [titles|] eqn:Hkey.
  - right. split; [by eexists|].
    assert (7 ≤ length (section_names (PolicyConfig.framework config))).
    { destruct (framework_templates_lookup_Some _ _ Hkey)
        as [-> | [-> | ->]]; vm_compute; lia. }
    split; [lia|done].
  - left. split; [done|].
    rewrite (section_names_unknown _ Hkey) in Hlen.
    by apply nil_length_inv.
Qed.

End Journal.

Lemma generate_policy_log_witness :
  uninterrupted acme (replay mimic_script) ∧
  failures (policy_outcomes acme (replay mimic_script)) = [] ∧
  ∃ policy st',
    generate_policy acme (replay mimic_script) = (Returned policy, st') ∧
    log st' = [generating_event acme].
Proof.
  assert (Hrun : uninterrupted acme (replay mimic_script))
    by (vm_compute; reflexivity).
  assert (Hnone : failures (policy_outcomes acme (replay mimic_script)) = [])
    by (vm_compute; reflexivity).
  split; [exact Hrun|]. split; [exact Hnone|].
  destruct (generate_policy_log acme (replay mimic_script) Hrun)
    as (policy & st' & Hpolicy & _ & _ & Hquiet).
  exists policy, st'. split; [exact Hpolicy|].
  exact (proj1 Hquiet Hnone).
Defined.

Lemma generate_policy_none_or_five_witness :
  uninterrupted acme (replay flaky_script) ∧
  ∃ policy st',
    generate_policy acme (replay flaky_script) = (Returned policy, st') ∧
    length (policy_sections policy) = 5.
Proof.
  assert (Hrun : uninterrupted acme (replay flaky_script))
    by (vm_compute; reflexivity).
  split; [exact Hrun|].
  destruct (generate_policy_none_or_five acme (replay flaky_script) Hrun)
    as (policy & st' & Hpolicy & [[Hunknown _]|(_ & Hfive & _)]).
  - vm_compute in Hunknown. discriminate Hunknown.
  - by exists policy, st'.
Defined.

(** ** Beyond the claims: the prompt *)

Lemma string_app_length (a b : string) :
  String.length (a +:+ b) = String.length a + String.length b.
Proof. induction a as [|c a IH]; simpl; [done|]. by rewrite IH. Qed.

Lemma string_app_inj_r (a b c : string) : a +:+ c = b +:+ c -> a = b.
Proof.
  revert b. induction a as [|x a IH]; intros [|y b] Heq.
  - reflexivity.
  - apply (f_equal String.length) in Heq.
    rewrite !string_app_length in Heq. simpl in Heq. exfalso. lia.
  - apply (f_equal String.length) in Heq.
    rewrite !string_app_length in Heq. simpl in Heq. exfalso. lia.
  - change (String x (a +:+ c) = String y (b +:+ c)) in Heq.
    injection Heq as -> Heq. f_equal. by apply IH.
Qed.

Lemma prompt_inj_section_name_aux config (s1 s2 : string) :
  prompt s1 config = prompt s2 config -> s1 = s2.
Proof.
  unfold prompt. intros Heq.
  apply (inj (String.append "Generate a comprehensive ")) in Heq.
  by apply string_app_inj_r in Heq.
Qed.

Lemma chat_request_inj (p1 p2 : string) :
  chat_request p1 = chat_request p2 -> p1 = p2.
Proof.
  intros Heq.
  apply (f_equal (fun request =>
                    match messages request with
                    | [_; user_message] => content user_message
                    | _ => ""
                    end)) in Heq.
  exact Heq.
Qed.

(** X4: for a fixed configuration the request sent for a section determines
    the section title: two titles with the same prompt, or with the same
    request, are the same title. *)
Theorem prompt_inj_section_name config (s1 s2 : string) :
  prompt s1 config = prompt s2 config ∨
  chat_request (prompt s1 config) = chat_request (prompt s2 config) ->
  s1 = s2.
Proof.
  intros [Heq|Heq]; [|apply chat_request_inj in Heq];
    by apply prompt_inj_section_name_aux in Heq.
Qed.

Lemma prompt_inj_section_name_witness :
  prompt "Access Control" acme = prompt "Access Control" acme ∧
  "Access Control" = "Access Control".
Proof.
  assert (Heq : prompt "Access Control" acme = prompt "Access Control" acme)
    by reflexivity.
  split; [exact Heq|].
  exact (prompt_inj_section_name acme "Access Control" "Access Control"
           (or_introl Heq)).
Defined.

Lemma outline_NoDup config : NoDup (outline config).
Proof.
  unfold outline, section_names.
  destruct (framework_templates !! PolicyConfig.framework config)
    as [titles|] eqn:Hkey; simpl.
  - destruct (framework_templates_lookup_Some _ _ Hkey)
      as [Hfw | [Hfw | Hfw]];
      rewrite Hfw in Hkey; vm_compute in Hkey; injection Hkey as <-;
      apply (bool_decide_unpack _); vm_compute; reflexivity.
  - constructor.
Qed.

Lemma request_inj config (s1 s2 : string) :
  chat_request (prompt s1 config) = chat_request (prompt s2 config) ->
  s1 = s2.
Proof.
  intros Heq. apply chat_request_inj in Heq.
  by apply prompt_inj_section_name_aux in Heq.
Qed.

(** X5: within one run no request is sent twice: the requests made for the
    titles of the truncated outline are pairwise different. *)
Theorem generate_policy_requests_NoDup config :
  NoDup (map (fun section_name => chat_request (prompt section_name config))
             (outline config)).
Proof.
  pose proof (outline_NoDup config) as Hnodup.
  induction Hnodup as [|section_name names Hnotin Hnodup IH]; simpl.
  - constructor.
  - constructor; [|exact IH].
    intros Hin. apply Hnotin.
    apply list_elem_of_In, in_map_iff in Hin.
    destruct Hin as (other & Heq & Hin).
    apply request_inj in Heq. subst other. by apply list_elem_of_In.
Qed.

(** X6: the prompt does not delimit the fields it embeds, so it does not
    determine the configuration: configurations that differ in organization
    name and industry can have the same prompt for every section title. *)
Theorem prompt_not_inj_config :
  ¬ (∀ c1 c2 : PolicyConfig,
       (∀ section_name, prompt section_name c1 = prompt section_name c2) ->
       PolicyConfig.organization_name c1 = PolicyConfig.organization_name c2).
Proof.
  intros Hinj. specialize (Hinj split_early split_late).
  assert (Hsame : ∀ section_name,
             prompt section_name split_early = prompt section_name split_late).
  { intros section_name. unfold prompt. do 2 f_equal. }
  apply Hinj in Hsame. vm_compute in Hsame. discriminate Hsame.
Qed.


(** ** Beyond the claims: the exporters *)

Lemma docx_sections_length (sections : list PolicySection) :
  length (flat_map docx_section sections) = 3 * length sections ∧
  length (List.filter is_page_break (flat_map docx_section sections))
    = length sections.
Proof.
  induction sections as [|section sections [IHl IHb]]; [done|].
  simpl in *. rewrite IHl, IHb. split; lia.
Qed.

Lemma pdf_sections_length (sections : list PolicySection) :
  length (flat_map pdf_section sections) = 4 * length sections.
Proof.
  induction sections as [|section sections IH]; [done|].
  simpl in *. rewrite IH. lia.
Qed.



(** X7: the Word export reads nothing of a record but its title,
    organization, framework, generator attribution and sections: two
    records that agree on these (they may differ in the industry) make it
    do the same calls, with the same outcome and the same log. *)
Theorem export_to_docx_reads {W : Type} (C : Collaborators W)
    (p1 p2 : PolicyRecord) :
  docx_visible p1 = docx_visible p2 ->
  ∀ output_path (st : State W),
    @export_to_docx _ C p1 output_path st
    = @export_to_docx _ C p2 output_path st.
Proof.
  destruct p1 as [t1 f1 s1 [o1 i1 g1]], p2 as [t2 f2 s2 [o2 i2 g2]].
  unfold docx_visible. cbn. intros Heq. injection Heq as -> -> -> -> ->.
  reflexivity.
Qed.

(** X8: the PDF export reads nothing of a record but its title,
    organization and sections: two records that agree on these (they may
    differ in framework, generator attribution and industry) make it do the
    same calls, with the same outcome and the same log. *)
Theorem export_to_pdf_reads {W : Type} (C : Collaborators W)
    (p1 p2 : PolicyRecord) :
  pdf_visible p1 = pdf_visible p2 ->
  ∀ output_path (st : State W),
    @export_to_pdf _ C p1 output_path st
    = @export_to_pdf _ C p2 output_path st.
Proof.
  destruct p1 as [t1 f1 s1 [o1 i1 g1]], p2 as [t2 f2 s2 [o2 i2 g2]].
  unfold pdf_visible. cbn. intros Heq. injection Heq as -> -> ->.
  reflexivity.
Qed.

Lemma export_to_docx_reads_witness :
  docx_visible sample_policy =
  docx_visible
    {| policy_title := policy_title sample_policy;
       policy_framework := policy_framework sample_policy;
       policy_sections := policy_sections sample_policy;
       policy_metadata :=
         {| meta_organization := "Acme";
            meta_industry := "Retail";
            meta_generated_by := generated_by |} |} ∧
  @export_to_docx _ (Traced Replay) sample_policy "policy.docx"
    (traced_replay []) =
  @export_to_docx _ (Traced Replay)
    {| policy_title := policy_title sample_policy;
       policy_framework := policy_framework sample_policy;
       policy_sections := policy_sections sample_policy;
       policy_metadata :=
         {| meta_organization := "Acme";
            meta_industry := "Retail";
            meta_generated_by := generated_by |} |}
    "policy.docx" (traced_replay []).
Proof.
  split; [reflexivity|].
  exact (export_to_docx_reads (Traced Replay) sample_policy _ eq_refl
           "policy.docx" (traced_replay [])).
Defined.

Lemma export_to_pdf_reads_witness :
  pdf_visible sample_policy =
  pdf_visible
    {| policy_title := policy_title sample_policy;
       policy_framework := "NIS2";
       policy_sections := policy_sections sample_policy;
       policy_metadata :=
         {| meta_organization := "Acme";
            meta_industry := "Retail";
            meta_generated_by := "" |} |} ∧
  @export_to_pdf _ (Traced Replay) sample_policy "policy.pdf"
    (traced_replay []) =
  @export_to_pdf _ (Traced Replay)
    {| policy_title := policy_title sample_policy;
       policy_framework := "NIS2";
       policy_sections := policy_sections sample_policy;
       policy_metadata :=
         {| meta_organization := "Acme";
            meta_industry := "Retail";
            meta_generated_by := "" |} |}
    "policy.pdf" (traced_replay []).
Proof.
  split; [reflexivity|].
  exact (export_to_pdf_reads (Traced Replay) sample_policy _ eq_refl
           "policy.pdf" (traced_replay [])).
Defined.


Section ExporterProperties.
Context {W : Type} `{!Collaborators W}.

(** X10: for every policy record, the PDF export constructs, in this order:
    the title paragraph, a spacer, the organization line (the only metadata
    line), a spacer, then, section after section, a Heading1 paragraph with
    the title, a 6 point spacer, a Normal paragraph with the content and a
    12 point spacer.  Provided each of these constructor calls returns, it
    hands that story and a letter-size template for the output path to the
    renderer; the export is logged when the renderer returns, and a failure
    of the renderer reaches the caller. *)
Theorem export_to_pdf_layout policy output_path (st : State W) (w1 : W) :
  run_all Flowable_init
    ([ Paragraph (policy_title policy) Title;
       Spacer 1 12;
       Paragraph
         ("Organization: " +:+ meta_organization (policy_metadata policy))
         Normal;
       Spacer 1 12 ]
     ++ flat_map
          (fun section =>
             [ Paragraph (section_title section) Heading1;
               Spacer 1 6;
               Paragraph (section_content section) Normal;
               Spacer 1 12 ])
          (policy_sections policy))
    (world st) = (Returned tt, w1) ->
  export_to_pdf policy output_path st =
  write_then_log
    (SimpleDocTemplate_build
       {| filename := output_path; pagesize := (612, 792) |}
       ([ Paragraph (policy_title policy) Title;
          Spacer 1 12;
          Paragraph
            ("Organization: "
               +:+ meta_organization (policy_metadata policy))
            Normal;
          Spacer 1 12 ]
        ++ flat_map
             (fun section =>
                [ Paragraph (section_title section) Heading1;
                  Spacer 1 6;
                  Paragraph (section_content section) Normal;
                  Spacer 1 12 ])
             (policy_sections policy)))
    (exported_event "PDF" output_path)
    {| world := w1; log := log st |}.
Proof.
  fold pdf_section. fold (pdf_story policy). intros Hinits.
  by rewrite export_to_pdf_run, Hinits.
Qed.

(** X11: the exporters absorb no failure: when a call made while the
    document is built raises, or when all of them return and the writer
    ([doc.save], [doc.build]) raises, the export raises the same exception
    and logs nothing. *)
Theorem exporters_propagate_failure policy output_path (st : State W)
    e (w w1 : W) :
  (run_all Document_add (docx_document policy) (world st) = (Raised e, w) ->
   export_to_docx policy output_path st
     = (Raised e, {| world := w; log := log st |})) ∧
  (run_all Document_add (docx_document policy) (world st)
     = (Returned tt, w1) ->
   Document_save (docx_document policy) output_path w1 = (Raised e, w) ->
   export_to_docx policy output_path st
     = (Raised e, {| world := w; log := log st |})) ∧
  (run_all Flowable_init (pdf_story policy) (world st) = (Raised e, w) ->
   export_to_pdf policy output_path st
     = (Raised e, {| world := w; log := log st |})) ∧
  (run_all Flowable_init (pdf_story policy) (world st)
     = (Returned tt, w1) ->
   SimpleDocTemplate_build
     {| filename := output_path; pagesize := letter |} (pdf_story policy)
     w1 = (Raised e, w) ->
   export_to_pdf policy output_path st
     = (Raised e, {| world := w; log := log st |})).
Proof.
  rewrite export_to_docx_run, export_to_pdf_run. unfold write_then_log.
  repeat split.
  - by intros ->.
  - intros -> Hsave. cbn [and_then world log]. by rewrite Hsave.
  - by intros ->.
  - intros -> Hbuild. cbn [and_then world log]. by rewrite Hbuild.
Qed.

(** X12: end to end, the Word document and the PDF story of a generated
    policy carry the title heading "<framework> Security Policy - <org>"
    followed by one heading per title of the truncated outline, in outline
    order; the Word metadata lines are the organization, the framework and
    the fixed attribution; the document has at most 20 body elements and
    the story at most 24 flowables. *)
Theorem generated_policy_exports config (st : State W) :
  uninterrupted config st ->
  ∃ policy st',
    generate_policy config st = (Returned policy, st') ∧
    docx_headings (docx_document policy) =
      (PolicyConfig.framework config +:+ " Security Policy - "
         +:+ PolicyConfig.organization_name config, 0)
      :: map (fun section_name => (section_name, 1)) (outline config) ∧
    pdf_headings (pdf_story policy) =
      (PolicyConfig.framework config +:+ " Security Policy - "
         +:+ PolicyConfig.organization_name config, Title)
      :: map (fun section_name => (section_name, Heading1))
             (outline config) ∧
    take 3 (docx_paragraphs (docx_document policy)) =
      [ "Organization: " +:+ PolicyConfig.organization_name config;
        "Framework: " +:+ PolicyConfig.framework config;
        "Generated by: Ayi NEDJIMI - ayinedjimi-consultants.fr" ] ∧
    length (docx_document policy) ≤ 20 ∧
    length (pdf_story policy) ≤ 24.
Proof.
  intros Hrun. rewrite generate_policy_run by exact Hrun.
  eexists _, _. split; [reflexivity|].
  unfold docx_document, pdf_story.
  cbn [policy_title policy_framework policy_sections policy_metadata
       meta_organization meta_generated_by].
  set (sections :=
         zip_with section_of (outline config) (policy_outcomes config st)).
  assert (Htitles : map section_title sections = outline config)
    by (apply zip_section_of_titles, policy_outcomes_length).
  assert (Hlen : length sections ≤ 5).
  { rewrite <- (length_map section_title), Htitles, outline_length. lia. }
  destruct (docx_section_markers sections) as [Hdh _].
  destruct (pdf_section_markers sections) as [Hph _].
  destruct (docx_sections_length sections) as [Hdl _].
  pose proof (pdf_sections_length sections) as Hpl.
  unfold docx_headings, docx_paragraphs, pdf_headings in *.
  rewrite !omap_app, Hdh, Hph, !length_app, Hdl, Hpl.
  rewrite <- Htitles, !map_map.
  repeat split; try reflexivity; simpl; lia.
Qed.

End ExporterProperties.

Lemma export_to_pdf_layout_witness :
  run_all Flowable_init (pdf_story sample_policy) [] = (Returned tt, []) ∧
  export_to_pdf sample_policy "policy.pdf" (replay []) =
    (Returned tt,
     {| world := []; log := [exported_event "PDF" "policy.pdf"] |}).
Proof.
  assert (Hinits : run_all Flowable_init (pdf_story sample_policy) []
                   = (Returned tt, []))
    by (vm_compute; reflexivity).
  split; [exact Hinits|].
  exact (export_to_pdf_layout sample_policy "policy.pdf" (replay []) []
           Hinits).
Defined.

Lemma exporters_propagate_failure_witness :
  (@run_all _ _ (@Document_add _ (Strict Replay))
     (docx_document bell_policy) [] = (Raised XmlValueError, []) ∧
   @export_to_docx _ (Strict Replay) bell_policy "policy.docx" (replay [])
     = (Raised XmlValueError, replay [])) ∧
  (@run_all _ _ (@Flowable_init _ (Strict Replay))
     (pdf_story bold_policy) [] = (Raised MarkupValueError, []) ∧
   @export_to_pdf _ (Strict Replay) bold_policy "policy.pdf" (replay [])
     = (Raised MarkupValueError, replay [])) ∧
  (@Document_save _ (ReadOnly Replay) (docx_document sample_policy)
     "policy.docx" [] = (Raised PermissionError, []) ∧
   @export_to_docx _ (ReadOnly Replay) sample_policy "policy.docx" (replay [])
     = (Raised PermissionError, replay [])) ∧
  (@SimpleDocTemplate_build _ (ReadOnly Replay)
     {| filename := "policy.pdf"; pagesize := letter |}
     (pdf_story sample_policy) [] = (Raised PermissionError, []) ∧
   @export_to_pdf _ (ReadOnly Replay) sample_policy "policy.pdf" (replay [])
     = (Raised PermissionError, replay [])).
Proof.
  destruct (@exporters_propagate_failure _ (Strict Replay) bell_policy
              "policy.docx" (replay []) XmlValueError [] [])
    as (Hadd & _ & _ & _).
  destruct (@exporters_propagate_failure _ (Strict Replay) bold_policy
              "policy.pdf" (replay []) MarkupValueError [] [])
    as (_ & _ & Hinit & _).
  destruct (@exporters_propagate_failure _ (ReadOnly Replay) sample_policy
              "policy.docx" (replay []) PermissionError [] [])
    as (_ & Hsave & _ & _).
  destruct (@exporters_propagate_failure _ (ReadOnly Replay) sample_policy
              "policy.pdf" (replay []) PermissionError [] [])
    as (_ & _ & _ & Hbuild).
  split; [split; [vm_compute; reflexivity|apply Hadd; vm_compute; reflexivity]|].
  split; [split; [vm_compute; reflexivity|apply Hinit; vm_compute; reflexivity]|].
  split; [split; [reflexivity|apply Hsave; vm_compute; reflexivity]|].
  split; [reflexivity|apply Hbuild; vm_compute; reflexivity].
Defined.

Lemma generated_policy_exports_witness :
  uninterrupted acme (replay flaky_script) ∧
  ∃ policy st',
    generate_policy acme (replay flaky_script) = (Returned policy, st') ∧
    length (docx_document policy) ≤ 20 ∧
    length (pdf_story policy) ≤ 24.
Proof.
  assert (Hrun : uninterrupted acme (replay flaky_script))
    by (vm_compute; reflexivity).
  split; [exact Hrun|].
  destruct (generated_policy_exports acme (replay flaky_script) Hrun)
    as (policy & st' & Hpolicy & _ & _ & _ & Hdocx & Hpdf).
  by exists policy, st'.
Defined.

(** X13: an export makes the calls of its layout in order, up to and
    including the first that does not return; it calls its writer exactly
    once, with the document (or the story) built, when all of them returned
    and not at all otherwise; it never calls the chat endpoint, and nothing
    is retried. *)
Theorem exporters_single_write {W : Type} (C : Collaborators W)
    policy output_path (st : State (W * list ExternalCall)) :
  (world (@export_to_docx _ (Traced C) policy output_path st).2).2 =
    (world st).2 ++
    map AddCall
      (attempted (@Document_add W C) (docx_document policy) (world st).1) ++
    match (run_all (@Document_add W C) (docx_document policy) (world st).1).1
    with
    | Returned _ => [SaveCall (docx_document policy) output_path]
    | _ => []
    end ∧
  (world (@export_to_pdf _ (Traced C) policy output_path st).2).2 =
    (world st).2 ++
    map FlowableCall
      (attempted (@Flowable_init W C) (pdf_story policy) (world st).1) ++
    match (run_all (@Flowable_init W C) (pdf_story policy) (world st).1).1
    with
    | Returned _ =>
        [BuildCall {| filename := output_path; pagesize := letter |}
                   (pdf_story policy)]
    | _ => []
    end ∧
  attempted (@Document_add W C) (docx_document policy) (world st).1
    `prefix_of` docx_document policy ∧
  attempted (@Flowable_init W C) (pdf_story policy) (world st).1
    `prefix_of` pdf_story policy.
Proof.
  split; [apply export_to_docx_journal|].
  split; [apply export_to_pdf_journal|].
  split; apply attempted_prefix.
Qed.

(** ** Beyond the claims: construction *)

(** X14: [__init__] keeps an explicit, non-empty key; for a missing or
    empty key it takes the value of OPENAI_API_KEY, which may itself be
    missing: construction never fails.  The module-level [openai.api_key]
    is set to the same value and the environment is left as it was. *)
Theorem init_api_key (key : option string) (p : Process) :
  api_key (__init__ key p).1 =
    (if decide (key = None ∨ key = Some "")
     then environ p !! "OPENAI_API_KEY"
     else key) ∧
  openai_api_key (__init__ key p).2 = api_key (__init__ key p).1 ∧
  environ (__init__ key p).2 = environ p.
Proof.
  repeat split. destruct key as [[|c s]|]; reflexivity.
Qed.

(** The module-level key belongs to the generator constructed last:
    constructing a second generator overwrites what the first one set, so
    the process is left exactly as if the first had never been made. *)
Lemma init_last_wins (key1 key2 : option string) (p : Process) :
  (__init__ key2 (__init__ key1 p).2).2 = (__init__ key2 p).2 ∧
  (__init__ key2 (__init__ key1 p).2).1 = (__init__ key2 p).1 ∧
  openai_api_key (__init__ key2 (__init__ key1 p).2).2 =
    api_key (__init__ key2 p).1.
Proof. done. Qed.

(** ** Beyond the claims: titles and repeated runs *)

Lemma outline_subseteq config :
  outline config ⊆ section_names (PolicyConfig.framework config).
Proof. unfold outline. apply subseteq_take. Qed.

Section Runs.
Context {W : Type} `{!Collaborators W}.

(** X15: a generated policy (of a run none of whose calls raises outside
    [Exception]) never has two sections with the same title, and every
    section title is a title of the outline of the configured framework. *)
Theorem generate_policy_titles config (st : State W) :
  uninterrupted config st ->
  ∃ policy st',
    generate_policy config st = (Returned policy, st') ∧
    NoDup (map section_title (policy_sections policy)) ∧
    map section_title (policy_sections policy)
      ⊆ section_names (PolicyConfig.framework config).
Proof.
  intros Hrun. rewrite generate_policy_run by exact Hrun.
  eexists _, _. split; [reflexivity|].
  cbn [policy_sections].
  rewrite zip_section_of_titles by apply policy_outcomes_length.
  split; [apply outline_NoDup|apply outline_subseteq].
Qed.

End Runs.

Lemma generate_policy_titles_witness :
  uninterrupted acme (replay flaky_script) ∧
  ∃ policy st',
    generate_policy acme (replay flaky_script) = (Returned policy, st') ∧
    NoDup (map section_title (policy_sections policy)).
Proof.
  assert (Hrun : uninterrupted acme (replay flaky_script))
    by (vm_compute; reflexivity).
  split; [exact Hrun|].
  destruct (generate_policy_titles acme (replay flaky_script) Hrun)
    as (policy & st' & Hpolicy & Hnodup & _).
  by exists policy, st'.
Defined.

(** X16: nothing is remembered between runs: generating the same policy
    twice in a row (in runs none of whose calls raises outside
    [Exception]) sends every request a second time, in the same order, and
    gives a record with the same title and the same section titles. *)
Theorem generate_policy_twice {W : Type} (C : Collaborators W)
    config (st : State (W * list ExternalCall)) :
  @uninterrupted _ C config (untraced st) ->
  @uninterrupted _ C config
    (untraced (@generate_policy _ (Traced C) config st).2) ->
  ∃ policy1 st1 policy2 st2,
    @generate_policy _ (Traced C) config st = (Returned policy1, st1) ∧
    @generate_policy _ (Traced C) config st1 = (Returned policy2, st2) ∧
    (world st2).2 =
      (world st).2 ++
      map (fun section_name =>
             ChatCall (chat_request (prompt section_name config)))
          (outline config ++ outline config) ∧
    policy_title policy1 = policy_title policy2 ∧
    map section_title (policy_sections policy1)
      = map section_title (policy_sections policy2).
Proof.
  intros Hrun1 Hrun2.
  destruct (generate_policy_requests_aux C config st Hrun1)
    as (policy1 & st1 & Hfirst & _ & Htitle1 & Hsec1 & Hcalls1).
  rewrite Hfirst in Hrun2. cbn [snd] in Hrun2.
  destruct (generate_policy_requests_aux C config st1 Hrun2)
    as (policy2 & st2 & Hsecond & _ & Htitle2 & Hsec2 & Hcalls2).
  exists policy1, st1, policy2, st2.
  split; [exact Hfirst|]. split; [exact Hsecond|]. split.
  - rewrite Hcalls2, Hcalls1, map_app. by rewrite <- (assoc_L (++)).
  - split; congruence.
Qed.

Lemma generate_policy_twice_witness :
  @uninterrupted _ Replay acme (untraced (traced_replay flaky_script)) ∧
  @uninterrupted _ Replay acme
    (untraced
       (@generate_policy _ (Traced Replay) acme
          (traced_replay flaky_script)).2) ∧
  ∃ policy1 st1 policy2 st2,
    @generate_policy _ (Traced Replay) acme (traced_replay flaky_script)
      = (Returned policy1, st1) ∧
    @generate_policy _ (Traced Replay) acme st1 = (Returned policy2, st2) ∧
    length (world st2).2 = 10.
Proof.
  assert (Hrun1 : @uninterrupted _ Replay acme
                    (untraced (traced_replay flaky_script)))
    by (vm_compute; reflexivity).
  assert (Hrun2 : @uninterrupted _ Replay acme
                    (untraced
                       (@generate_policy _ (Traced Replay) acme
                          (traced_replay flaky_script)).2))
    by (vm_compute; reflexivity).
  split; [exact Hrun1|]. split; [exact Hrun2|].
  destruct (generate_policy_twice Replay acme (traced_replay flaky_script)
              Hrun1 Hrun2)
    as (policy1 & st1 & policy2 & st2 & Hfirst & Hsecond & Hjournal & _).
  exists policy1, st1, policy2, st2.
  split; [exact Hfirst|]. split; [exact Hsecond|].
  rewrite Hjournal. vm_compute. reflexivity.
Defined.

(** ** The model at work *)

Example unreachable_endpoint_gives_five_placeholders :
  (generate_policy acme (replay [])).1 =
  Returned
    {| policy_title := "RGPD Security Policy - Acme";
       policy_framework := "RGPD";
       policy_sections :=
         map (fun section_name =>
                {| section_title := section_name;
                   section_content := placeholder section_name |})
             [ "Data Protection Principles";
               "Lawful Basis for Processing";
               "Data Subject Rights";
               "Data Security Measures";
               "Data Breach Notification" ];
       policy_metadata :=
         {| meta_organization := "Acme";
            meta_industry := "Finance";
            meta_generated_by := generated_by |} |}.
Proof. vm_compute. reflexivity. Qed.

Example unknown_framework_soc2 :
  (generate_policy (PolicyConfig.make "SOC2" "Acme" "Finance" "medium")
     (replay flaky_script)).1 =
  Returned
    {| policy_title := "SOC2 Security Policy - Acme";
       policy_framework := "SOC2";
       policy_sections := [];
       policy_metadata :=
         {| meta_organization := "Acme";
            meta_industry := "Finance";
            meta_generated_by := generated_by |} |}.
Proof. vm_compute. reflexivity. Qed.

Example flaky_run_log :
  map log_event (log (generate_policy acme (replay flaky_script)).2) =
  [ "Generating policy"; "LLM generation failed"; "LLM generation failed" ].
Proof. vm_compute. reflexivity. Qed.

Example interrupted_run_stops_at_second_call :
  (world
     (@generate_policy _ (Traced Replay) acme
        (traced_replay interrupted_script)).2).2 =
  [ ChatCall (chat_request (prompt "Data Protection Principles" acme));
    ChatCall (chat_request (prompt "Lawful Basis for Processing" acme)) ].
Proof. vm_compute. reflexivity. Qed.

Example sample_policy_docx :
  docx_document sample_policy =
  [ DocxHeading "RGPD Security Policy - Acme" 0;
    DocxParagraph "Organization: Acme";
    DocxParagraph "Framework: RGPD";
    DocxParagraph "Generated by: Ayi NEDJIMI - ayinedjimi-consultants.fr";
    DocxPageBreak;
    DocxHeading "Data Protection Principles" 1;
    DocxParagraph "Principles.";
    DocxPageBreak;
    DocxHeading "Lawful Basis for Processing" 1;
    DocxParagraph "[Section content for Lawful Basis for Processing]";
    DocxPageBreak ].
Proof. vm_compute. reflexivity. Qed.

Example sample_policy_pdf_journal :
  (world
     (@export_to_pdf _ (Traced Replay) sample_policy "policy.pdf"
        (traced_replay [])).2).2 =
  map FlowableCall (pdf_story sample_policy) ++
  [ BuildCall {| filename := "policy.pdf"; pagesize := (612, 792) |}
      [ Paragraph "RGPD Security Policy - Acme" Title;
        Spacer 1 12;
        Paragraph "Organization: Acme" Normal;
        Spacer 1 12;
        Paragraph "Data Protection Principles" Heading1;
        Spacer 1 6;
        Paragraph "Principles." Normal;
        Spacer 1 12;
        Paragraph "Lawful Basis for Processing" Heading1;
        Spacer 1 6;
        Paragraph "[Section content for Lawful Basis for Processing]" Normal;
        Spacer 1 12 ] ].
Proof. vm_compute. reflexivity. Qed.

Example prompt_text :
  prompt "Access Control"
    (PolicyConfig.make "ISO27001" "Acme" "Finance" "medium") =
  "Generate a comprehensive Access Control section for a ISO27001 security policy."
  +:+ LF +:+ LF +:+ "Organization: Acme" +:+ LF +:+ "Industry: Finance"
  +:+ LF +:+ "Size: medium" +:+ LF +:+ LF
  +:+ "Provide detailed, professional content with:" +:+ LF
  +:+ "- Clear objectives" +:+ LF +:+ "- Specific requirements" +:+ LF
  +:+ "- Implementation guidelines" +:+ LF +:+ "- Compliance requirements"
  +:+ LF +:+ LF +:+ "Format in professional policy language.".
Proof. vm_compute. reflexivity. Qed.
